(** * Time Management Hub client: calendar grid, task overlay, navigation

    A shallow embedding of the logic of [Calendar.js] and [Dashboard.js].

    The components lean on three built-ins of the host language: [Date],
    [String.prototype.trim]/[split] and [Array.prototype.slice]/[filter].
    Module [JS] models them after ECMA-262 (the abstract operations keep
    the standard's names: [Day], [DayFromYear], [YearFromTime], [MakeDay],
    [TimeClip], ...).  Modules [Calendar] and [Dashboard] then follow the
    two source files function by function.

    Modelling choices:
    - a Number is [NaN] or an integer ([Z]); every Number the components
      compute is an integer below 2^53 in magnitude, where doubles are exact;
    - a [Date] object is its time value (milliseconds since the epoch, UTC)
      or [NaN] for an Invalid Date;
    - the host's time zone is a [Zone]: the offset of local time from UTC
      that holds at first and the changes of offset after it (daylight
      saving, changes of rule), each with the instant from which it holds;
      [LocalTime] and [UTC] convert with the offset in force, and [UTC]
      resolves a local time that the clock skipped or went through twice
      the way ECMA-262 21.4.1.26 asks for.  Facts that hold on every host
      are stated for every [Zone]; facts about the days of the grid are
      stated for the [regular] zones of module [Zones], and failures are
      shown on a host at UTC;
    - a String is the list of its UTF-16 code units;
    - an [async] handler is a function of the component state and of the
      outcome of each request it awaits; it returns the state it leaves
      behind and the effects (requests, console lines) it performed, in
      order.  The value carried by a rejection is only ever handed to
      [console.error], so it is not recorded. *)

From Stdlib Require Import ZArith Lia String Ascii.
From stdpp Require Import base list numbers.

Local Open Scope Z_scope.

(* ================================================================== *)
(** * Built-ins of the host language *)
(* ================================================================== *)

Module JS.

(** ** Numbers *)

Inductive number : Type :=
  | NaN
  | Num (z : Z).

Definition num_add (a b : number) : number :=
  match a, b with
  | Num x, Num y => Num (x + y)
  | _, _ => NaN
  end.

Definition num_neg (a : number) : number :=
  match a with
  | Num x => Num (- x)
  | NaN => NaN
  end.

(** ** Strings *)

Definition CodeUnit : Type := Z.
Definition JSString : Type := list CodeUnit.

(** The code units of an ASCII literal. *)
Definition lit (s : string) : JSString :=
  List.map (fun a => Z.of_N (N_of_ascii a)) (list_ascii_of_string s).

(** The values a JSON field of a task can hold, as far as the components
    look at them. *)
Inductive value : Type :=
  | Undefined
  | Null
  | Str (s : JSString).

(** [a === b] *)
Definition strict_eq (a b : value) : bool :=
  match a, b with
  | Undefined, Undefined => true
  | Null, Null => true
  | Str s, Str t => bool_decide (s = t)
  | _, _ => false
  end.

(** WhiteSpace and LineTerminator code points (ECMA-262 12.2, 12.3); all of
    them lie in the Basic Multilingual Plane, so one code unit each. *)
Definition is_white_space (c : CodeUnit) : bool :=
  (c =? 9) || (c =? 10) || (c =? 11) || (c =? 12) || (c =? 13) || (c =? 32)
  || (c =? 160) || (c =? 5760) || ((8192 <=? c) && (c <=? 8202))
  || (c =? 8232) || (c =? 8233) || (c =? 8239) || (c =? 8287)
  || (c =? 12288) || (c =? 65279).

Fixpoint trim_start (s : JSString) : JSString :=
  match s with
  | [] => []
  | c :: s' => if is_white_space c then trim_start s' else s
  end.

(** [s.trim()] *)
Definition trim (s : JSString) : JSString :=
  rev (trim_start (rev (trim_start s))).

(** [s.split(sep)] for a separator of one code unit. *)
Fixpoint split (sep : CodeUnit) (s : JSString) : list JSString :=
  match s with
  | [] => [[]]
  | c :: s' =>
      if c =? sep then [] :: split sep s'
      else match split sep s' with
           | [] => [[c]]
           | w :: ws => (c :: w) :: ws
           end
  end.

(** [arr[i]] on an array of strings: [undefined] past the end. *)
Definition index (arr : list JSString) (i : nat) : value :=
  match arr !! i with
  | Some s => Str s
  | None => Undefined
  end.

(** ** Arrays *)

(** [arr.push(x)] *)
Definition push {A} (arr : list A) (x : A) : list A := arr ++ [x].

(** [arr.slice(start, end)] (ECMA-262 23.1.3.28): negative arguments count
    from the end, both are clamped to the array. *)
Definition slice {A} (start end_ : Z) (arr : list A) : list A :=
  let len := Z.of_nat (length arr) in
  let k := if start <? 0 then Z.max (len + start) 0 else Z.min start len in
  let final := if end_ <? 0 then Z.max (len + end_) 0 else Z.min end_ len in
  take (Z.to_nat (final - k)) (drop (Z.to_nat k) arr).

(** ** Counting loops *)

(** [n] rounds of [body], the counter starting at [i] and stepping by one. *)
Fixpoint for_upto {A} (n : nat) (i : Z) (body : Z -> A -> A) (acc : A) : A :=
  match n with
  | O => acc
  | S n' => for_upto n' (i + 1) body (body i acc)
  end.

(** [for (let i = a; i < b; i++) body]; a comparison with [NaN] is false. *)
Definition for_lt {A} (a : Z) (b : number) (body : Z -> A -> A) (acc : A) : A :=
  match b with
  | NaN => acc
  | Num b => for_upto (Z.to_nat (b - a)) a body acc
  end.

(** [for (let i = a; i <= b; i++) body] *)
Definition for_le {A} (a : Z) (b : number) (body : Z -> A -> A) (acc : A) : A :=
  match b with
  | NaN => acc
  | Num b => for_upto (Z.to_nat (b + 1 - a)) a body acc
  end.

(** ** Outcomes of fallible operations *)

Inductive Result (A : Type) : Type :=
  | Ok (a : A)
  | Err.
Arguments Ok {A} a.
Arguments Err {A}.

(** ** Date: abstract operations of ECMA-262 21.4.1 *)

Definition msPerDay : Z := 86400000.
Definition msPerHour : Z := 3600000.
Definition msPerMinute : Z := 60000.
Definition msPerSecond : Z := 1000.

Definition Day (t : Z) : Z := t / msPerDay.
Definition TimeWithinDay (t : Z) : Z := t mod msPerDay.

Definition DaysInYear (y : Z) : Z :=
  if negb (y mod 4 =? 0) then 365
  else if negb (y mod 100 =? 0) then 366
  else if negb (y mod 400 =? 0) then 365
  else 366.

Definition DayFromYear (y : Z) : Z :=
  365 * (y - 1970) + (y - 1969) / 4 - (y - 1901) / 100 + (y - 1601) / 400.

Definition TimeFromYear (y : Z) : Z := msPerDay * DayFromYear y.

(** The standard defines [YearFromTime t] as the largest [y] with
    [TimeFromYear y <= t].  It is computed here from the mean length of a
    year, 146097/400 days, which is off by at most one
    ([YearFromTime_largest] below proves the standard's description). *)
Definition YearFromTime (t : Z) : Z :=
  let d := Day t in
  let y := 1970 + (d * 400) / 146097 in
  if d <? DayFromYear y then y - 1
  else if DayFromYear (y + 1) <=? d then y + 1
  else y.

Definition InLeapYear (t : Z) : Z :=
  if DaysInYear (YearFromTime t) =? 366 then 1 else 0.

Definition DayWithinYear (t : Z) : Z := Day t - DayFromYear (YearFromTime t).

Definition MonthFromTime (t : Z) : Z :=
  let d := DayWithinYear t in
  let leap := InLeapYear t in
  if d <? 31 then 0
  else if d <? 59 + leap then 1
  else if d <? 90 + leap then 2
  else if d <? 120 + leap then 3
  else if d <? 151 + leap then 4
  else if d <? 181 + leap then 5
  else if d <? 212 + leap then 6
  else if d <? 243 + leap then 7
  else if d <? 273 + leap then 8
  else if d <? 304 + leap then 9
  else if d <? 334 + leap then 10
  else 11.

Definition DateFromTime (t : Z) : Z :=
  let d := DayWithinYear t in
  let leap := InLeapYear t in
  match MonthFromTime t with
  | 0 => d + 1
  | 1 => d - 30
  | 2 => d - 58 - leap
  | 3 => d - 89 - leap
  | 4 => d - 119 - leap
  | 5 => d - 150 - leap
  | 6 => d - 180 - leap
  | 7 => d - 211 - leap
  | 8 => d - 242 - leap
  | 9 => d - 272 - leap
  | 10 => d - 303 - leap
  | _ => d - 333 - leap
  end.

Definition WeekDay (t : Z) : Z := (Day t + 4) mod 7.

Definition HourFromTime (t : Z) : Z := (t / msPerHour) mod 24.
Definition MinFromTime (t : Z) : Z := (t / msPerMinute) mod 60.
Definition SecFromTime (t : Z) : Z := (t / msPerSecond) mod 60.
Definition msFromTime (t : Z) : Z := t mod msPerSecond.

Definition MakeTime (hour min sec ms : Z) : Z :=
  hour * msPerHour + min * msPerMinute + sec * msPerSecond + ms.

(** Days from 1 January to the first of month [mn] (0-11). *)
Definition DayFromMonth (mn leap : Z) : Z :=
  match mn with
  | 0 => 0
  | 1 => 31
  | 2 => 59 + leap
  | 3 => 90 + leap
  | 4 => 120 + leap
  | 5 => 151 + leap
  | 6 => 181 + leap
  | 7 => 212 + leap
  | 8 => 243 + leap
  | 9 => 273 + leap
  | 10 => 304 + leap
  | _ => 334 + leap
  end.

(** [MakeDay]: the standard asks for the day number of a time [t] whose
    year is [ym], month [mn] and date 1, plus [date - 1]; that day number is
    spelled out here ([MakeDay_first_of_month] below proves it is one). *)
Definition MakeDay (year month date : Z) : Z :=
  let ym := year + month / 12 in
  let mn := month mod 12 in
  let leap := if DaysInYear ym =? 366 then 1 else 0 in
  DayFromYear ym + DayFromMonth mn leap + date - 1.

Definition MakeDate (day time : Z) : Z := day * msPerDay + time.

Definition TimeClip (time : Z) : number :=
  if 8640000000000000 <? Z.abs time then NaN else Num time.

(** ** Date objects *)

Definition Date : Type := number.

(** ** The host's time zone *)

(** The rules of a time zone, as the host's zone database holds them: the
    offset of local time from UTC (milliseconds, positive east of
    Greenwich) in force at first, and the changes of offset in order of
    time, each with the instant (a time value) from which the new offset
    holds. *)
Record Zone : Type := {
  first_offset : Z;
  changes : list (Z * Z)
}.

(** A zone that keeps one offset: no daylight saving, or a host set to an
    offset such as [+01:00]. *)
Definition fixed_zone (offset : Z) : Zone :=
  {| first_offset := offset; changes := [] |}.

(** The offset at the instant [t], [offset] being in force ahead of the
    [changes]. *)
Fixpoint offset_from (offset : Z) (changes : list (Z * Z)) (t : Z) : Z :=
  match changes with
  | [] => offset
  | (instant, offset') :: changes' =>
      if t <? instant then offset else offset_from offset' changes' t
  end.

(** The smallest and the largest of a list of instants. *)
Definition earliest (l : list Z) : option Z :=
  match l with
  | [] => None
  | u :: l' => Some (fold_right Z.min u l')
  end.

Definition latest (l : list Z) : option Z :=
  match l with
  | [] => None
  | u :: l' => Some (fold_right Z.max u l')
  end.

Section HostTimeZone.

Variable zone : Zone.

(** [GetNamedTimeZoneOffsetNanoseconds] (ECMA-262 21.4.1.21), in
    milliseconds: the offset in force at the instant [t]. *)
Definition GetNamedTimeZoneOffset (t : Z) : Z :=
  offset_from (first_offset zone) (changes zone) t.

(** [LocalTime(t)] (ECMA-262 21.4.1.25) *)
Definition LocalTime (t : Z) : Z := t + GetNamedTimeZoneOffset t.

(** [GetNamedTimeZoneEpochNanoseconds] (ECMA-262 21.4.1.20), in
    milliseconds: the instants at which the local clock shows [t]; none
    when the clock skipped [t], more than one when it went through [t]
    again after being set back.  Such an instant is [t] less one of the
    offsets of the zone. *)
Definition GetNamedTimeZoneEpoch (t : Z) : list Z :=
  List.filter (fun u => LocalTime u =? t)
    (List.map (fun offset => t - offset)
       (first_offset zone :: List.map snd (changes zone))).

(** The last local time before [t] that the clock did show, for a [t]
    that it skipped: the local clock runs on from one millisecond to the
    next except at a change, so this is the local time of the millisecond
    that ends at a change ([tBefore_largest] below proves it is the
    largest). *)
Definition tBefore (t : Z) : option Z :=
  latest (List.filter (fun t' => t' <? t)
            (List.map (fun change => LocalTime (fst change - 1)) (changes zone))).

(** [UTC(t)] (ECMA-262 21.4.1.26): a local time the clock showed more than
    once is the first of its instants; a local time the clock skipped is
    read with the offset in force before the change, the offset of the
    last instant of [tBefore].  The clock shows every local time ahead of
    the first change, and [tBefore] is a time it showed, so the two [None]
    cases that carry [first_offset] are never reached ([UTC_first] and
    [UTC_skipped_last] below cover all local times). *)
Definition UTC (t : Z) : Z :=
  let offset :=
    match earliest (GetNamedTimeZoneEpoch t) with
    | Some disambiguatedInstant => GetNamedTimeZoneOffset disambiguatedInstant
    | None =>
        match tBefore t with
        | Some t' =>
            match latest (GetNamedTimeZoneEpoch t') with
            | Some disambiguatedInstant =>
                GetNamedTimeZoneOffset disambiguatedInstant
            | None => first_offset zone
            end
        | None => first_offset zone
        end
    end in
  t - offset.

(** [new Date(year, month, date)] (ECMA-262 21.4.2.1): years 0 to 99 mean
    1900 to 1999; the result is local midnight. *)
Definition new_Date (year month date : number) : Date :=
  match year, month, date with
  | Num y, Num m, Num dt =>
      let yr := if (0 <=? y) && (y <=? 99) then 1900 + y else y in
      let finalDate := MakeDate (MakeDay yr m dt) (MakeTime 0 0 0 0) in
      TimeClip (UTC finalDate)
  | _, _, _ => NaN
  end.

(** [new Date(d)] for a Date [d]: a copy of its time value. *)
Definition new_Date_from (d : Date) : Date :=
  match d with
  | NaN => NaN
  | Num tv => TimeClip tv
  end.

Definition getFullYear (d : Date) : number :=
  match d with
  | NaN => NaN
  | Num t => Num (YearFromTime (LocalTime t))
  end.

Definition getMonth (d : Date) : number :=
  match d with
  | NaN => NaN
  | Num t => Num (MonthFromTime (LocalTime t))
  end.

Definition getDate (d : Date) : number :=
  match d with
  | NaN => NaN
  | Num t => Num (DateFromTime (LocalTime t))
  end.

Definition getDay (d : Date) : number :=
  match d with
  | NaN => NaN
  | Num t => Num (WeekDay (LocalTime t))
  end.

(** [d.setMonth(month)] (ECMA-262 21.4.4.25): the date of the month and
    the time of day are kept, the result is the new time value. *)
Definition setMonth (d : Date) (month : number) : Date :=
  match d, month with
  | Num t0, Num m =>
      let t := LocalTime t0 in
      let newDate :=
        MakeDate (MakeDay (YearFromTime t) m (DateFromTime t)) (TimeWithinDay t) in
      TimeClip (UTC newDate)
  | _, _ => NaN
  end.

End HostTimeZone.

(** [n] decimal digits of [x], the most significant first. *)
Fixpoint digits (n : nat) (x : Z) : JSString :=
  match n with
  | O => []
  | S n' => digits n' (x / 10) ++ [48 + x mod 10]
  end.

(** The year of the date-time string format (ECMA-262 21.4.1.32): four
    digits from 0 to 9999, otherwise a sign and six digits. *)
Definition year_string (y : Z) : JSString :=
  if (0 <=? y) && (y <=? 9999) then digits 4 y
  else (if 0 <=? y then lit "+" else lit "-") ++ digits 6 (Z.abs y).

(** [YYYY-MM-DD], from the UTC fields of a time value. *)
Definition iso_date (tv : Z) : JSString :=
  year_string (YearFromTime tv) ++ lit "-" ++ digits 2 (MonthFromTime tv + 1)
  ++ lit "-" ++ digits 2 (DateFromTime tv).

(** [HH:mm:ss.sssZ] *)
Definition iso_time (tv : Z) : JSString :=
  digits 2 (HourFromTime tv) ++ lit ":" ++ digits 2 (MinFromTime tv)
  ++ lit ":" ++ digits 2 (SecFromTime tv) ++ lit "." ++ digits 3 (msFromTime tv)
  ++ lit "Z".

(** [d.toISOString()] (ECMA-262 21.4.4.36): always in UTC; a RangeError on
    an Invalid Date. *)
Definition toISOString (d : Date) : Result JSString :=
  match d with
  | NaN => Err
  | Num tv => Ok (iso_date tv ++ lit "T" ++ iso_time tv)
  end.

End JS.

(* ================================================================== *)
(** * Calendar.js *)
(* ================================================================== *)

Module Task.

(** A task as the API returns it. *)
Record t : Type := {
  id : Z;
  title : JS.JSString;
  description : JS.value;
  due_date : JS.value;
  priority : JS.JSString;
  status : JS.JSString
}.

End Task.

Module Calendar.

Import JS.

(** One entry of the grid: [{ date, isCurrentMonth }]. *)
Record Cell : Type := {
  date : Date;
  isCurrentMonth : bool
}.

(** The form behind the modal: [{ title, description, priority }]. *)
Record NewTask : Type := {
  title : JSString;
  description : JSString;
  priority : JSString
}.

(** The [useState] cells of the component; [selectedDate] is [null] or a
    Date. *)
Record State : Type := {
  currentDate : Date;
  tasks : list Task.t;
  selectedDate : option Date;
  showTaskModal : bool;
  newTask : NewTask;
  loading : bool
}.

Definition setCurrentDate (d : Date) (st : State) : State :=
  {| currentDate := d; tasks := tasks st; selectedDate := selectedDate st;
     showTaskModal := showTaskModal st; newTask := newTask st;
     loading := loading st |}.

Definition setTasks (ts : list Task.t) (st : State) : State :=
  {| currentDate := currentDate st; tasks := ts; selectedDate := selectedDate st;
     showTaskModal := showTaskModal st; newTask := newTask st;
     loading := loading st |}.

Definition setSelectedDate (d : option Date) (st : State) : State :=
  {| currentDate := currentDate st; tasks := tasks st; selectedDate := d;
     showTaskModal := showTaskModal st; newTask := newTask st;
     loading := loading st |}.

Definition setShowTaskModal (b : bool) (st : State) : State :=
  {| currentDate := currentDate st; tasks := tasks st;
     selectedDate := selectedDate st; showTaskModal := b;
     newTask := newTask st; loading := loading st |}.

Definition setNewTask (f : NewTask) (st : State) : State :=
  {| currentDate := currentDate st; tasks := tasks st;
     selectedDate := selectedDate st; showTaskModal := showTaskModal st;
     newTask := f; loading := loading st |}.

Definition setLoading (b : bool) (st : State) : State :=
  {| currentDate := currentDate st; tasks := tasks st;
     selectedDate := selectedDate st; showTaskModal := showTaskModal st;
     newTask := newTask st; loading := b |}.

(** What a handler does to the outside world. *)
Inductive Effect : Type :=
  | GetCalendarTasks (month year : number)
      (** [axios.get(API/calendar/tasks, { params: { month, year } })] *)
  | PostTask (form : NewTask) (due_date : value)
      (** [axios.post(API/tasks, { ...newTask, due_date })] *)
  | ConsoleError (msg : JSString).

(** What is drawn under the day number of a cell. *)
Inductive Indicator : Type :=
  | TaskRow (task : Task.t)
  | MoreRow (count : Z).

(** [!s] on a string: only the empty string is falsy. *)
Definition falsy_string (s : JSString) : bool :=
  match s with
  | [] => true
  | _ :: _ => false
  end.

(** [!d] where [d] is [null] or a Date object: every object is truthy. *)
Definition falsy_date (d : option Date) : bool :=
  match d with
  | None => true
  | Some _ => false
  end.

(** [selectedDate.toISOString()]; a TypeError on [null]. *)
Definition date_value (d : option Date) : Result JSString :=
  match d with
  | None => Err
  | Some d => toISOString d
  end.

Section Component.

Variable zone : Zone.

Definition fetchCalendarTasks (response : Result (list Task.t)) (st : State)
  : State * list Effect :=
  let st := setLoading true st in
  let request :=
    GetCalendarTasks (num_add (getMonth zone (currentDate st)) (Num 1))
                     (getFullYear zone (currentDate st)) in
  match response with
  | Ok data => (setLoading false (setTasks data st), [request])
  | Err =>
      (setLoading false st,
       [request; ConsoleError (lit "Error fetching calendar tasks:")])
  end.

(** [post] is the outcome of the POST, [refetch] the outcome of the GET
    that follows a successful POST.  The request body is built before the
    POST is sent, inside the [try]. *)
Definition createTask (post : Result unit) (refetch : Result (list Task.t))
    (st : State) : State * list Effect :=
  if falsy_string (trim (title (newTask st))) || falsy_date (selectedDate st)
  then (st, [])
  else
    match date_value (selectedDate st) with
    | Err => (st, [ConsoleError (lit "Error creating task:")])
    | Ok iso =>
        let request := PostTask (newTask st) (index (split 84 iso) 0) in
        match post with
        | Err => (st, [request; ConsoleError (lit "Error creating task:")])
        | Ok _ =>
            let st :=
              setNewTask {| title := lit ""; description := lit "";
                            priority := lit "medium" |} st in
            let st := setShowTaskModal false st in
            let st := setSelectedDate None st in
            let '(st, effects) := fetchCalendarTasks refetch st in
            (st, request :: effects)
        end
    end.

Definition getDaysInMonth (date : Date) : list Cell :=
  let year := getFullYear zone date in
  let month := getMonth zone date in
  let firstDay := new_Date zone year month (Num 1) in
  let lastDay := new_Date zone year (num_add month (Num 1)) (Num 0) in
  let daysInMonth := getDate zone lastDay in
  let startingDayOfWeek := getDay zone firstDay in
  let days := [] in
  let days :=
    for_lt 0 startingDayOfWeek (fun i days =>
      let prevMonthDay :=
        new_Date zone year month
          (num_add (num_add (num_neg startingDayOfWeek) (Num i)) (Num 1)) in
      push days {| date := prevMonthDay; isCurrentMonth := false |}) days in
  let days :=
    for_le 1 daysInMonth (fun day days =>
      push days {| date := new_Date zone year month (Num day);
                   isCurrentMonth := true |}) days in
  let remainingCells := 42 - Z.of_nat (length days) in
  let days :=
    for_le 1 (Num remainingCells) (fun i days =>
      let nextMonthDay :=
        new_Date zone year (num_add month (Num 1)) (Num i) in
      push days {| date := nextMonthDay; isCurrentMonth := false |}) days in
  days.

(** [toISOString] throws on an Invalid Date; the filter runs over the
    [tasks] of the component state. *)
Definition getTasksForDate (tasks : list Task.t) (date : Date)
  : Result (list Task.t) :=
  match toISOString date with
  | Err => Err
  | Ok iso =>
      let dateString := index (split 84 iso) 0 in
      Ok (List.filter (fun task => strict_eq (Task.due_date task) dateString)
                      tasks)
  end.

Definition navigateMonth (direction : Z) (st : State) : State :=
  let newDate := new_Date_from (currentDate st) in
  let newDate :=
    setMonth zone newDate
      (num_add (getMonth zone (currentDate st)) (Num direction)) in
  setCurrentDate newDate st.

Definition handleDateClick (date : Cell) (st : State) : State :=
  if negb (isCurrentMonth date) then st
  else
    let st := setSelectedDate (Some (Calendar.date date)) st in
    setShowTaskModal true st.

(** The month the header shows: [monthNames[currentDate.getMonth()]] and
    [currentDate.getFullYear()]. *)
Definition displayedMonth (st : State) : number * number :=
  (getFullYear zone (currentDate st), getMonth zone (currentDate st)).

(** The day number a cell shows, [day.date.getDate()], with the month and
    year it belongs to on the host's clock. *)
Definition local_date (d : Date) : option (Z * Z * Z) :=
  match d with
  | NaN => None
  | Num t =>
      Some (YearFromTime (LocalTime zone t),
            MonthFromTime (LocalTime zone t),
            DateFromTime (LocalTime zone t))
  end.

End Component.

(** The task indicators of one cell: [dayTasks.slice(0, 3).map(...)], then
    the [+N more] line when [dayTasks.length > 3]. *)
Definition taskIndicators (dayTasks : list Task.t) : list Indicator :=
  List.map TaskRow (slice 0 3 dayTasks)
  ++ (if 3 <? Z.of_nat (length dayTasks)
      then [MoreRow (Z.of_nat (length dayTasks) - 3)]
      else []).

(** The tasks drawn in a cell, and the count of the [+N more] line. *)
Definition shownTasks (rows : list Indicator) : list Task.t :=
  flat_map (fun r => match r with TaskRow task => [task] | MoreRow _ => [] end)
           rows.

Definition moreCounts (rows : list Indicator) : list Z :=
  flat_map (fun r => match r with TaskRow _ => [] | MoreRow n => [n] end) rows.

(** Cells ahead of the first one that belongs to the month, and cells
    behind the last one. *)
Fixpoint leadingCells (cells : list Cell) : nat :=
  match cells with
  | [] => O
  | c :: cells' => if isCurrentMonth c then O else S (leadingCells cells')
  end.

Definition trailingCells (cells : list Cell) : nat := leadingCells (rev cells).

Definition currentMonthCells (cells : list Cell) : list Cell :=
  List.filter isCurrentMonth cells.

End Calendar.

(* ================================================================== *)
(** * The civil calendar the specification refers to *)
(* ================================================================== *)

Module Civil.

(** The Gregorian leap-year rule. *)
Definition is_leap_year (y : Z) : bool :=
  (y mod 4 =? 0) && (negb (y mod 100 =? 0) || (y mod 400 =? 0)).

(** Days of month [m] (0 = January) of year [y]. *)
Definition days_in_month (y m : Z) : Z :=
  match m with
  | 1 => if is_leap_year y then 29 else 28
  | 3 | 5 | 8 | 10 => 30
  | _ => 31
  end.

(** The day after [(y, m, d)]. *)
Definition next_day (ymd : Z * Z * Z) : Z * Z * Z :=
  let '(y, m, d) := ymd in
  if d <? days_in_month y m then (y, m, d + 1)
  else if m <? 11 then (y, m + 1, 1)
  else (y + 1, 0, 1).



(** Day of the week of [(y, m, d)], 0 = Sunday, by Zeller's congruence
    (January and February count as months 13 and 14 of the year before). *)
Definition weekday (y m d : Z) : Z :=
  let Y := if m <? 2 then y - 1 else y in
  let M := if m <? 2 then m + 13 else m + 1 in
  let K := Y mod 100 in
  let J := Y / 100 in
  (d + (13 * (M + 1)) / 5 + K + K / 4 + J / 4 + 5 * J + 6) mod 7.

(** The years [new Date(year, month, date)] takes as written and whose
    months lie, with the days around them, inside the range of time values
    a Date can hold (20 April -271821 to 13 September 275760). *)
Definition plain_year (y : Z) : Prop :=
  (-271820 <= y <= -1) \/ (100 <= y <= 275759).

End Civil.

(* ================================================================== *)
(** * Time zones as they occur *)
(* ================================================================== *)

Module Zones.

Import JS.

(** Every offset of the zone lies between [lo] and [hi]. *)
Definition offsets_between (lo hi : Z) (zone : Zone) : Prop :=
  Forall (fun offset => lo <= offset <= hi)
         (first_offset zone :: List.map snd (changes zone)).

(** The offsets of the zone are under a day, and within less than a day of
    one another (the offsets in use lie between -12h and +14h, those of one
    zone a few hours apart). *)
Definition offsets_close (zone : Zone) : Prop :=
  exists lo hi,
    - msPerDay < lo /\ hi < msPerDay /\ hi - lo < msPerDay /\
    offsets_between lo hi zone.

(** The changes of a zone come in order of time, each at least a day
    after the one before (those of a zone with daylight saving are months
    apart). *)
Fixpoint spaced_from (instant : Z) (changes : list (Z * Z)) : Prop :=
  match changes with
  | [] => True
  | (instant', _) :: changes' =>
      instant + msPerDay <= instant' /\ spaced_from instant' changes'
  end.

Definition spaced (zone : Zone) : Prop :=
  match changes zone with
  | [] => True
  | (instant, _) :: changes' => spaced_from instant changes'
  end.

(** The zones the facts about the grid are stated for: close offsets and
    spaced changes.  Zones with one offset and zones with daylight saving
    are of this kind; a zone that skips a whole day of the calendar, as
    Samoa did at the end of 2011, is not. *)
Definition regular (zone : Zone) : Prop :=
  offsets_close zone /\ spaced zone.

(** What the facts need of a regular zone beyond its offsets: the instant
    [UTC] gives for a local time never shows an earlier local time; it
    shows that local time itself, or a later one when the clock skipped
    it. *)
Definition never_back (zone : Zone) : Prop :=
  forall t, t <= LocalTime zone (UTC zone t).

(** Zones that are never ahead of UTC, and zones that always are. *)
Definition west (zone : Zone) : Prop :=
  offsets_between (1 - msPerDay) 0 zone.

Definition east (zone : Zone) : Prop :=
  offsets_between 1 (msPerDay - 1) zone.

(** The local clock shows [t] at some instant: no change of offset skips
    it. *)
Definition shown (zone : Zone) (t : Z) : Prop :=
  LocalTime zone (UTC zone t) = t.


(** The zone of New York through 2024: five hours behind UTC, four from
    10 March 07:00 UTC to 3 November 06:00 UTC. *)
Definition new_york_2024 : Zone :=
  {| first_offset := -18000000;
     changes := [(1710054000000, -14400000); (1730613600000, -18000000)] |}.

(** The zone of London through 2024: at UTC, one hour ahead from
    31 March 01:00 UTC to 27 October 01:00 UTC. *)
Definition london_2024 : Zone :=
  {| first_offset := 0;
     changes := [(1711846800000, 3600000); (1729990800000, 0)] |}.

(** The zone of Samoa (Apia) at the end of 2011: ten hours behind UTC
    until 30 December 10:00 UTC, local midnight, and fourteen hours ahead
    from then on; the calendar went from 29 December to 31 December. *)
Definition apia_2011 : Zone :=
  {| first_offset := -36000000; changes := [(1325239200000, 50400000)] |}.

End Zones.

(* ================================================================== *)
(** * Dashboard.js *)
(* ================================================================== *)

Module Dashboard.

Import JS.

Record Stats : Type := {
  total_tasks : Z;
  completed_tasks : Z;
  pending_tasks : Z;
  overdue_tasks : Z;
  today_tasks : Z
}.

Record State : Type := {
  stats : Stats;
  recentTasks : list Task.t;
  upcomingTasks : list Task.t;
  loading : bool
}.

Definition setStats (s : Stats) (st : State) : State :=
  {| stats := s; recentTasks := recentTasks st;
     upcomingTasks := upcomingTasks st; loading := loading st |}.

Definition setRecentTasks (ts : list Task.t) (st : State) : State :=
  {| stats := stats st; recentTasks := ts;
     upcomingTasks := upcomingTasks st; loading := loading st |}.

Definition setUpcomingTasks (ts : list Task.t) (st : State) : State :=
  {| stats := stats st; recentTasks := recentTasks st;
     upcomingTasks := ts; loading := loading st |}.

Definition setLoading (b : bool) (st : State) : State :=
  {| stats := stats st; recentTasks := recentTasks st;
     upcomingTasks := upcomingTasks st; loading := b |}.

(** The state of a fresh component: the arguments of its [useState]s. *)
Definition initial : State :=
  {| stats := {| total_tasks := 0; completed_tasks := 0; pending_tasks := 0;
                 overdue_tasks := 0; today_tasks := 0 |};
     recentTasks := []; upcomingTasks := []; loading := true |}.

Inductive Effect : Type :=
  | Get (path : JSString)
  | ConsoleError (msg : JSString).

(** [await Promise.all([p1, p2, p3])]: the array of the three values when
    all three are fulfilled, a rejection as soon as one is rejected. *)
Definition Promise_all3 {A B C} (p1 : Result A) (p2 : Result B) (p3 : Result C)
  : Result (A * B * C) :=
  match p1, p2, p3 with
  | Ok a, Ok b, Ok c => Ok (a, b, c)
  | _, _, _ => Err
  end.

(** The three requests are all issued before the first [await]. *)
Definition fetchDashboardData (statsR : Result Stats)
    (recentR upcomingR : Result (list Task.t)) (st : State)
  : State * list Effect :=
  let st := setLoading true st in
  let requests :=
    [Get (lit "/dashboard/stats"); Get (lit "/dashboard/recent-tasks");
     Get (lit "/dashboard/upcoming-tasks")] in
  match Promise_all3 statsR recentR upcomingR with
  | Ok (statsResponse, recentResponse, upcomingResponse) =>
      let st := setStats statsResponse st in
      let st := setRecentTasks recentResponse st in
      let st := setUpcomingTasks upcomingResponse st in
      (setLoading false st, requests)
  | Err =>
      (setLoading false st,
       requests ++ [ConsoleError (lit "Error fetching dashboard data:")])
  end.

End Dashboard.

(* ================================================================== *)
(** * What the specification says of a grid *)
(* ================================================================== *)

Module GridSpec.

Import JS Calendar Civil.

Section Grid.

Variable zone : Zone.

(** The Date handed to the grid builder, by its time value. *)
Variable t : Z.

Let y := YearFromTime (LocalTime zone t).
Let m := MonthFromTime (LocalTime zone t).
Let cells := getDaysInMonth zone (Num t).

(** The 42 cells run through consecutive days in increasing order; the
    first cell of the month is the first of the month, the last one its
    last day, and the flag is set exactly from the one to the other: so
    the cells ahead are the days just before the month and the cells
    behind the days just after it. *)
Definition consecutive : Prop :=
  length cells = 42%nat /\
  (forall i c1 c2, cells !! i = Some c1 -> cells !! S i = Some c2 ->
     exists t1 t2, date c1 = Num t1 /\ date c2 = Num t2 /\ t1 < t2 /\
       local_date zone (date c2)
       = next_day <$> local_date zone (date c1)) /\
  (exists first last,
     cells !! leadingCells cells = Some first /\
     local_date zone (date first) = Some (y, m, 1) /\
     cells !! (41 - trailingCells cells)%nat = Some last /\
     local_date zone (date last) = Some (y, m, days_in_month y m)) /\
  (forall i c, cells !! i = Some c ->
     isCurrentMonth c = true
     <-> (leadingCells cells <= i < 42 - trailingCells cells)%nat).

(** As many cells of the month as the month has days, as many cells
    ahead of them as the weekday index of the first; March 2024 has 5
    ahead, 31 inside and 6 behind. *)
Definition counts : Prop :=
  Z.of_nat (length (currentMonthCells cells)) = days_in_month y m /\
  Z.of_nat (leadingCells cells) = weekday y m 1 /\
  (y = 2024 -> m = 2 ->
     leadingCells cells = 5%nat /\
     length (currentMonthCells cells) = 31%nat /\
     trailingCells cells = 6%nat).

End Grid.

End GridSpec.

(* ================================================================== *)
(** * More built-ins: date strings, array and property lookup *)
(* ================================================================== *)

Module JSText.

Import JS.

(** Digits of a non-negative integer, pushed in front of [acc] from the
    least significant one; [fuel] bounds the number of digits. *)
Fixpoint decimal_loop (fuel : nat) (n : Z) (acc : JSString) : JSString :=
  match fuel with
  | O => acc
  | S fuel' =>
      let acc' := (48 + n mod 10) :: acc in
      if n <? 10 then acc' else decimal_loop fuel' (n / 10) acc'
  end.

(** The decimal string of a non-negative integer, without leading zeros;
    a number has at most one more decimal digit than its binary logarithm. *)
Definition decimal (n : Z) : JSString :=
  decimal_loop (S (Z.to_nat (Z.log2 n))) n [].

(** [ToZeroPaddedDecimalString(n, minLength)] (ECMA-262 7.1.6.3): the
    decimal string, filled with zeros on the left up to [minLength]. *)
Definition ToZeroPaddedDecimalString (n : Z) (minLength : nat) : JSString :=
  let s := decimal n in
  List.repeat 48 (minLength - length s) ++ s.

(** Names of weekdays and months in date strings (ECMA-262, tables of
    21.4.4.41.2). *)
Definition day_name (w : Z) : JSString :=
  match w with
  | 0 => lit "Sun"
  | 1 => lit "Mon"
  | 2 => lit "Tue"
  | 3 => lit "Wed"
  | 4 => lit "Thu"
  | 5 => lit "Fri"
  | _ => lit "Sat"
  end.

Definition month_name (m : Z) : JSString :=
  match m with
  | 0 => lit "Jan"
  | 1 => lit "Feb"
  | 2 => lit "Mar"
  | 3 => lit "Apr"
  | 4 => lit "May"
  | 5 => lit "Jun"
  | 6 => lit "Jul"
  | 7 => lit "Aug"
  | 8 => lit "Sep"
  | 9 => lit "Oct"
  | 10 => lit "Nov"
  | _ => lit "Dec"
  end.

(** [DateString(tv)] (ECMA-262 21.4.4.41.2), as in [Sun Mar 10 2024]. *)
Definition DateString (tv : Z) : JSString :=
  let yv := YearFromTime tv in
  let yearSign := if 0 <=? yv then lit "" else lit "-" in
  day_name (WeekDay tv) ++ lit " " ++ month_name (MonthFromTime tv) ++ lit " "
  ++ ToZeroPaddedDecimalString (DateFromTime tv) 2 ++ lit " "
  ++ yearSign ++ ToZeroPaddedDecimalString (Z.abs yv) 4.

(** [d.toDateString()] (ECMA-262 21.4.4.35): the local date. *)
Definition toDateString (zone : Zone) (d : Date) : JSString :=
  match d with
  | NaN => lit "Invalid Date"
  | Num tv => DateString (LocalTime zone tv)
  end.

(** The number a string of decimal digits stands for. *)
Definition value_of (s : JSString) : Z :=
  fold_left (fun a c => 10 * a + (c - 48)) s 0.

(** [arr[i]] for a Number [i]: an element for an integer from 0 up to the
    length, [undefined] for anything else. *)
Definition index_number (arr : list JSString) (i : number) : value :=
  match i with
  | NaN => Undefined
  | Num z => if z <? 0 then Undefined else index arr (Z.to_nat z)
  end.

(** [table[key] || table.fallback] on an object literal whose values are
    non-empty strings: an own property wins; failing that the property is
    looked up on [Object.prototype], whose values (functions, the prototype
    object) are all truthy; [inherited key] is the text such a value turns
    into inside a template literal, [None] when the prototype has no such
    property; failing that too the lookup is [undefined] and the fallback is
    taken. *)
Definition lookup_or (inherited : JSString -> option JSString)
    (table : list (JSString * JSString)) (key : JSString) (fallback : JSString)
  : JSString :=
  match List.find (fun entry => bool_decide (fst entry = key)) table with
  | Some entry => snd entry
  | None =>
      match inherited key with
      | Some text => text
      | None => fallback
      end
  end.

End JSText.

(* ================================================================== *)
(** * Calendar.js: today's cell, headers, dot classes *)
(* ================================================================== *)

Module CalendarView.

Import JS JSText Calendar.

(** [today] stands for the [new Date()] taken inside the function. *)
Definition isToday (zone : Zone) (today : Date) (date : Date) : bool :=
  bool_decide (toDateString zone date = toDateString zone today).

Definition monthNames : list JSString :=
  [lit "January"; lit "February"; lit "March"; lit "April"; lit "May";
   lit "June"; lit "July"; lit "August"; lit "September"; lit "October";
   lit "November"; lit "December"].

Definition dayNames : list JSString :=
  [lit "Sun"; lit "Mon"; lit "Tue"; lit "Wed"; lit "Thu"; lit "Fri"; lit "Sat"].

(** The title of the calendar: [monthNames[currentDate.getMonth()]] and
    [currentDate.getFullYear()]. *)
Definition headerTitle (zone : Zone) (st : State) : value * number :=
  (index_number monthNames (getMonth zone (currentDate st)),
   getFullYear zone (currentDate st)).

Definition dotClasses : list (JSString * JSString) :=
  [(lit "todo", lit "calendar-task-dot-todo");
   (lit "in_progress", lit "calendar-task-dot-in-progress");
   (lit "completed", lit "calendar-task-dot-completed")].

Definition getTaskDotClass (inherited : JSString -> option JSString)
    (status : JSString) : JSString :=
  lit "calendar-task-dot "
  ++ lookup_or inherited dotClasses status (lit "calendar-task-dot-todo").

End CalendarView.

(* ================================================================== *)
(** * Calendar.js as an event-driven system *)
(* ================================================================== *)

Module CalendarEvents.

Import JS Calendar.

(** A request on its way.  The refetch that follows a successful POST is
    made by the [fetchCalendarTasks] of the render in which the button was
    clicked, so the POST carries the [currentDate] of that render. *)
Inductive Pending : Type :=
  | PendingFetch
  | PendingPost (captured : Date).

(** The outcome of a request: the [data] of the response, or a failure. *)
Inductive Outcome : Type :=
  | Fulfilled (data : list Task.t)
  | Rejected.

(** The component between two events: its state and the requests that
    have not come back yet, oldest first. *)
Record System : Type := {
  ui : State;
  pending : list Pending
}.

Inductive Event : Type :=
  | ClickPrevious
  | ClickNext
  | ClickDay (index : nat)
      (** a click on the cell at [index] of the grid on display *)
  | CloseModal
      (** the overlay, the cross or Cancel: [setShowTaskModal(false)] *)
  | TypeTitle (text : JSString)
  | TypeDescription (text : JSString)
  | SelectPriority (text : JSString)
  | ClickCreate
  | Settle (which : nat) (outcome : Outcome)
      (** the pending request at position [which] comes back *).

Section Component.

Variable zone : Zone.

(** [fetchCalendarTasks] up to its [await], for the [currentDate] its
    closure holds. *)
Definition startFetch (captured : Date) (s : System) : System * list Effect :=
  ({| ui := setLoading true (ui s); pending := pending s ++ [PendingFetch] |},
   [GetCalendarTasks (num_add (getMonth zone captured) (Num 1))
                     (getFullYear zone captured)]).

(** [fetchCalendarTasks] after its [await]. *)
Definition settleFetch (outcome : Outcome) (st : State) : State * list Effect :=
  match outcome with
  | Fulfilled data => (setLoading false (setTasks data st), [])
  | Rejected =>
      (setLoading false st,
       [ConsoleError (lit "Error fetching calendar tasks:")])
  end.

(** [createTask] up to its [await]. *)
Definition startCreate (s : System) : System * list Effect :=
  let st := ui s in
  if falsy_string (trim (title (newTask st))) || falsy_date (selectedDate st)
  then (s, [])
  else
    match date_value (selectedDate st) with
    | Err => (s, [ConsoleError (lit "Error creating task:")])
    | Ok iso =>
        ({| ui := st; pending := pending s ++ [PendingPost (currentDate st)] |},
         [PostTask (newTask st) (index (split 84 iso) 0)])
    end.

(** [createTask] after its [await]. *)
Definition settleCreate (captured : Date) (outcome : Outcome) (s : System)
  : System * list Effect :=
  match outcome with
  | Rejected => (s, [ConsoleError (lit "Error creating task:")])
  | Fulfilled _ =>
      let st :=
        setNewTask {| title := lit ""; description := lit "";
                      priority := lit "medium" |} (ui s) in
      let st := setShowTaskModal false st in
      let st := setSelectedDate None st in
      startFetch captured {| ui := st; pending := pending s |}
  end.

(** A month button: [navigateMonth], then the effect hook on
    [currentDate] fetches for the new Date. *)
Definition navigate (direction : Z) (s : System) : System * list Effect :=
  let st := navigateMonth zone direction (ui s) in
  startFetch (currentDate st) {| ui := st; pending := pending s |}.

Definition on_ui (f : State -> State) (s : System) : System * list Effect :=
  ({| ui := f (ui s); pending := pending s |}, []).

(** The modal and its controls exist only while [showTaskModal] holds. *)
Definition in_modal (f : System -> System * list Effect) (s : System)
  : System * list Effect :=
  if showTaskModal (ui s) then f s else (s, []).

Definition step (e : Event) (s : System) : System * list Effect :=
  match e with
  | ClickPrevious => navigate (-1) s
  | ClickNext => navigate 1 s
  | ClickDay i =>
      match getDaysInMonth zone (currentDate (ui s)) !! i with
      | Some day => on_ui (handleDateClick day) s
      | None => (s, [])
      end
  | CloseModal => in_modal (on_ui (setShowTaskModal false)) s
  | TypeTitle text =>
      in_modal (on_ui (fun st =>
        setNewTask {| title := text; description := description (newTask st);
                      priority := priority (newTask st) |} st)) s
  | TypeDescription text =>
      in_modal (on_ui (fun st =>
        setNewTask {| title := title (newTask st); description := text;
                      priority := priority (newTask st) |} st)) s
  | SelectPriority text =>
      in_modal (on_ui (fun st =>
        setNewTask {| title := title (newTask st);
                      description := description (newTask st);
                      priority := text |} st)) s
  | ClickCreate => in_modal startCreate s
  | Settle which outcome =>
      match pending s !! which with
      | None => (s, [])
      | Some request =>
          let s' := {| ui := ui s; pending := delete which (pending s) |} in
          match request with
          | PendingFetch =>
              let '(st, effects) := settleFetch outcome (ui s') in
              ({| ui := st; pending := pending s' |}, effects)
          | PendingPost captured => settleCreate captured outcome s'
          end
      end
  end.

(** Events one after the other; the effects in the order they happen. *)
Fixpoint run (events : list Event) (s : System) : System * list Effect :=
  match events with
  | [] => (s, [])
  | e :: events' =>
      let '(s1, effects1) := step e s in
      let '(s2, effects2) := run events' s1 in
      (s2, effects1 ++ effects2)
  end.

(** The component as mounted at the instant [now]: the [useState]
    defaults, and the first fetch of the effect hook on its way. *)
Definition mounted (now : Date) : System :=
  fst (startFetch now
         {| ui := {| currentDate := now; tasks := []; selectedDate := None;
                     showTaskModal := false;
                     newTask := {| title := lit ""; description := lit "";
                                   priority := lit "medium" |};
                     loading := false |};
            pending := [] |}).

End Component.

(** An open modal has a date to show. *)
Definition modal_has_date (s : System) : Prop :=
  showTaskModal (ui s) = true -> selectedDate (ui s) <> None.

End CalendarEvents.

(* ================================================================== *)
(** * Sample states *)
(* ================================================================== *)

Module Samples.

Import JS Calendar.

(** The calendar on 15 March 2024, noon UTC, nothing selected. *)
Definition march15 : State :=
  {| currentDate := Num 1710504000000; tasks := []; selectedDate := None;
     showTaskModal := false;
     newTask := {| title := lit ""; description := lit "";
                   priority := lit "medium" |};
     loading := false |}.

(** The same with the modal open on the cell of 15 March of a host one
    hour ahead of UTC, and a title typed in. *)
Definition march15_modal : State :=
  {| currentDate := Num 1710504000000; tasks := [];
     selectedDate := Some (Num 1710457200000); showTaskModal := true;
     newTask := {| title := lit "Report"; description := lit "";
                   priority := lit "high" |};
     loading := false |}.

(** A task due on the day written in [due]. *)
Definition report (n : Z) (due : string) : Task.t :=
  {| Task.id := n; Task.title := lit "Report"; Task.description := Null;
     Task.due_date := Str (lit due); Task.priority := lit "medium";
     Task.status := lit "todo" |}.

End Samples.

(* ================================================================== *)
(** * Dashboard.js: badge classes; App.js: the tabs *)
(* ================================================================== *)

Module DashboardView.

Import JS JSText.

Definition priorityClasses : list (JSString * JSString) :=
  [(lit "low", lit "priority-low"); (lit "medium", lit "priority-medium");
   (lit "high", lit "priority-high")].

Definition statusClasses : list (JSString * JSString) :=
  [(lit "todo", lit "status-todo");
   (lit "in_progress", lit "status-in-progress");
   (lit "completed", lit "status-completed")].

Definition taskCardClasses : list (JSString * JSString) :=
  [(lit "todo", lit "task-card-todo");
   (lit "in_progress", lit "task-card-in-progress");
   (lit "completed", lit "task-card-completed")].

Section Classes.

Variable inherited : JSString -> option JSString.

Definition getPriorityClass (priority : JSString) : JSString :=
  lit "priority-badge "
  ++ lookup_or inherited priorityClasses priority (lit "priority-medium").

Definition getStatusClass (status : JSString) : JSString :=
  lit "status-badge "
  ++ lookup_or inherited statusClasses status (lit "status-todo").

Definition getTaskCardClass (status : JSString) : JSString :=
  lit "task-card "
  ++ lookup_or inherited taskCardClasses status (lit "task-card-todo").

End Classes.

End DashboardView.

Module App.

Import JS.

(** The views the content area can hold. *)
Inductive View : Type :=
  | DashboardView
  | CalendarView.

(** [activeTab === "dashboard" && <Dashboard />] and the same for the
    calendar: a view is drawn when its comparison holds. *)
Definition content (activeTab : JSString) : list View :=
  (if bool_decide (activeTab = lit "dashboard") then [DashboardView] else [])
  ++ (if bool_decide (activeTab = lit "calendar") then [CalendarView] else []).

Inductive Click : Type :=
  | ClickDashboardTab
  | ClickCalendarTab.

(** [setActiveTab("dashboard")], [setActiveTab("calendar")]. *)
Definition click (c : Click) (activeTab : JSString) : JSString :=
  match c with
  | ClickDashboardTab => lit "dashboard"
  | ClickCalendarTab => lit "calendar"
  end.

(** [useState("dashboard")] *)
Definition initial : JSString := lit "dashboard".

Definition clicks (cs : list Click) (activeTab : JSString) : JSString :=
  fold_left (fun tab c => click c tab) cs activeTab.

End App.

(* ================================================================== *)
(** * Facts about dates *)
(* ================================================================== *)

Module DateFacts.
Import JS Civil.

(** Turn boolean comparisons in the context and goal into propositions. *)
Ltac bool_to_prop :=
  repeat match goal with
  | H : (_ <? _) = true |- _ => apply Z.ltb_lt in H
  | H : (_ <? _) = false |- _ => apply Z.ltb_ge in H
  | H : (_ <=? _) = true |- _ => apply Z.leb_le in H
  | H : (_ <=? _) = false |- _ => apply Z.leb_gt in H
  | H : (_ =? _) = true |- _ => apply Z.eqb_eq in H
  | H : (_ =? _) = false |- _ => apply Z.eqb_neq in H
  end.

(** Arithmetic with floor division and remainder by constants. *)
Ltac div_lia := Z.to_euclidean_division_equations; lia.

Lemma DayFromYear_succ y : DayFromYear (y + 1) = DayFromYear y + DaysInYear y.
Proof.
  unfold DayFromYear, DaysInYear.
  repeat case_match; simpl negb in *; try discriminate; bool_to_prop; div_lia.
Qed.

Lemma DaysInYear_cases y : DaysInYear y = 365 \/ DaysInYear y = 366.
Proof. unfold DaysInYear. repeat case_match; auto. Qed.

Lemma DaysInYear_leap y : DaysInYear y = if is_leap_year y then 366 else 365.
Proof.
  unfold DaysInYear, is_leap_year.
  destruct (y mod 4 =? 0), (y mod 100 =? 0) eqn:E100, (y mod 400 =? 0) eqn:E400; simpl; try reflexivity.
Qed.

Lemma DayFromYear_lt y y' : y < y' -> DayFromYear y < DayFromYear y'.
Proof. unfold DayFromYear. intros. div_lia. Qed.

Lemma YearFromTime_bounds t :
  DayFromYear (YearFromTime t) <= Day t < DayFromYear (YearFromTime t + 1).
Proof.
  unfold YearFromTime. cbv zeta. generalize (Day t). intros d.
  repeat case_match; bool_to_prop; unfold DayFromYear in *; div_lia.
Qed.

Lemma YearFromTime_unique t y :
  DayFromYear y <= Day t < DayFromYear (y + 1) -> YearFromTime t = y.
Proof.
  intros Hy. pose proof (YearFromTime_bounds t) as Ht.
  destruct (Z.lt_trichotomy (YearFromTime t) y) as [Hlt | [Heq | Hgt]]; [|exact Heq|].
  - assert (YearFromTime t + 1 <= y) as Hle by lia.
    apply Z.le_lteq in Hle. destruct Hle as [Hle | Hle].
    + apply DayFromYear_lt in Hle. lia.
    + rewrite Hle in Ht. lia.
  - assert (y + 1 <= YearFromTime t) as Hle by lia.
    apply Z.le_lteq in Hle. destruct Hle as [Hle | Hle].
    + apply DayFromYear_lt in Hle. lia.
    + rewrite <- Hle in Ht. lia.
Qed.

Lemma Day_TimeFromYear y : Day (TimeFromYear y) = DayFromYear y.
Proof. unfold Day, TimeFromYear, msPerDay. rewrite Z.mul_comm. apply Z.div_mul. lia. Qed.

Lemma TimeFromYear_le_iff y t : TimeFromYear y <= t <-> DayFromYear y <= Day t.
Proof. unfold TimeFromYear, Day, msPerDay. div_lia. Qed.

(** [YearFromTime t] is the largest year that starts at or before [t]:
    the description of ECMA-262. *)
Lemma YearFromTime_largest t :
  TimeFromYear (YearFromTime t) <= t /\
  forall y, TimeFromYear y <= t -> y <= YearFromTime t.
Proof.
  pose proof (YearFromTime_bounds t) as [Hlo Hhi]. split.
  - apply TimeFromYear_le_iff, Hlo.
  - intros y Hy. apply TimeFromYear_le_iff in Hy.
    destruct (Z_le_gt_dec y (YearFromTime t)) as [|Hgt]; [assumption|].
    assert (YearFromTime t + 1 <= y) as Hle by lia.
    apply Z.le_lteq in Hle. destruct Hle as [Hle | Hle].
    + apply DayFromYear_lt in Hle. lia.
    + subst y. lia.
Qed.

Lemma DayWithinYear_bounds t :
  0 <= DayWithinYear t < DaysInYear (YearFromTime t).
Proof.
  unfold DayWithinYear. pose proof (YearFromTime_bounds t) as H.
  rewrite DayFromYear_succ in H. lia.
Qed.


Lemma InLeapYear_leap t :
  InLeapYear t = if is_leap_year (YearFromTime t) then 1 else 0.
Proof. unfold InLeapYear. rewrite DaysInYear_leap. by destruct (is_leap_year _). Qed.

(** Split a month index known to lie in 0..11 into its twelve values. *)
Ltac month_cases m :=
  let H := fresh in
  assert (m = 0 \/ m = 1 \/ m = 2 \/ m = 3 \/ m = 4 \/ m = 5 \/ m = 6 \/
          m = 7 \/ m = 8 \/ m = 9 \/ m = 10 \/ m = 11) as H by lia;
  repeat (destruct H as [H | H]; [subst m|]); [..|subst m].

Lemma MonthFromTime_range t : 0 <= MonthFromTime t <= 11.
Proof. unfold MonthFromTime. cbv zeta. repeat case_match; lia. Qed.

(** The month and date read off a time value locate its day within the
    year, and the date is one the month has. *)
Lemma DateFromTime_spec t :
  let leap := InLeapYear t in
  DayFromMonth (MonthFromTime t) leap + DateFromTime t - 1 = DayWithinYear t /\
  1 <= DateFromTime t <= days_in_month (YearFromTime t) (MonthFromTime t).
Proof.
  cbv zeta. pose proof (DayWithinYear_bounds t) as Hd.
  rewrite DaysInYear_leap in Hd. rewrite InLeapYear_leap.
  unfold DateFromTime, MonthFromTime, days_in_month. rewrite InLeapYear_leap.
  destruct (is_leap_year (YearFromTime t)); cbv zeta;
    repeat case_match; bool_to_prop; simpl DayFromMonth; lia.
Qed.

Lemma DateFromTime_range t : 1 <= DateFromTime t <= 31.
Proof.
  pose proof (DateFromTime_spec t) as [_ H]. pose proof (MonthFromTime_range t) as Hm.
  revert H. generalize (YearFromTime t) as y. generalize dependent (MonthFromTime t).
  intros m Hm y. unfold days_in_month.
  month_cases m; try destruct (is_leap_year y); lia.
Qed.

Lemma WeekDay_range t : 0 <= WeekDay t <= 6.
Proof. unfold WeekDay. div_lia. Qed.

Lemma MakeDay_in_year y m d :
  0 <= m <= 11 ->
  MakeDay y m d = DayFromYear y + DayFromMonth m (if is_leap_year y then 1 else 0) + d - 1.
Proof.
  intros Hm. unfold MakeDay. cbv zeta.
  rewrite Z.div_small, Z.mod_small, Z.add_0_r by lia.
  rewrite DaysInYear_leap. by destruct (is_leap_year y).
Qed.

Lemma Day_MakeDate day time : 0 <= time < msPerDay -> Day (MakeDate day time) = day.
Proof. unfold Day, MakeDate, msPerDay. intros. div_lia. Qed.




(** The fields of a time value give back its day number. *)
Lemma MakeDay_of_time t :
  MakeDay (YearFromTime t) (MonthFromTime t) (DateFromTime t) = Day t.
Proof.
  rewrite MakeDay_in_year by apply MonthFromTime_range.
  pose proof (DateFromTime_spec t) as [H _]. cbv zeta in H.
  rewrite InLeapYear_leap in H. unfold DayWithinYear in H. lia.
Qed.

(** Reading back a date that exists gives the same year, month and date. *)
Lemma fields_of_MakeDay y m d t :
  0 <= m <= 11 -> 1 <= d <= days_in_month y m -> Day t = MakeDay y m d ->
  YearFromTime t = y /\ MonthFromTime t = m /\ DateFromTime t = d.
Proof.
  intros Hm Hd Ht. rewrite MakeDay_in_year in Ht by assumption.
  assert (YearFromTime t = y) as Hy.
  { apply YearFromTime_unique. rewrite DayFromYear_succ, DaysInYear_leap, Ht.
    unfold days_in_month in Hd.
    month_cases m; destruct (is_leap_year y); simpl in Hd; simpl DayFromMonth; lia. }
  assert (DayWithinYear t = DayFromMonth m (if is_leap_year y then 1 else 0) + d - 1) as Hw.
  { unfold DayWithinYear. rewrite Hy, Ht. lia. }
  assert (MonthFromTime t = m) as Hmt.
  { unfold MonthFromTime. cbv zeta. rewrite InLeapYear_leap, Hy, Hw.
    unfold days_in_month in Hd.
    month_cases m; destruct (is_leap_year y); simpl in Hd; simpl DayFromMonth;
      repeat case_match; bool_to_prop; lia. }
  split; [exact Hy|]. split; [exact Hmt|].
  unfold DateFromTime. cbv zeta. rewrite Hmt, InLeapYear_leap, Hy, Hw.
  clear - Hm. month_cases m; destruct (is_leap_year y); simpl; lia.
Qed.

(** The first of a month is where the standard's [MakeDay] looks for it. *)
Lemma MakeDay_first_of_month year month :
  let t := MakeDate (MakeDay year month 1) 0 in
  YearFromTime t = year + month / 12 /\ MonthFromTime t = month mod 12 /\
  DateFromTime t = 1.
Proof.
  cbv zeta. apply fields_of_MakeDay.
  - pose proof (Z.mod_pos_bound month 12). lia.
  - unfold days_in_month. repeat case_match; lia.
  - rewrite Day_MakeDate by (unfold msPerDay; lia). unfold MakeDay. cbv zeta.
    pose proof (Z.mod_pos_bound month 12 ltac:(lia)).
    rewrite (Z.div_small (month mod 12)), (Z.mod_small (month mod 12)), Z.add_0_r by lia.
    reflexivity.
Qed.

Lemma MakeDay_date_shift y m d k : MakeDay y m (d + k) = MakeDay y m d + k.
Proof. unfold MakeDay. lia. Qed.

(** Month [m + 1] starts when month [m] is over, December included. *)
Lemma MakeDay_next_month y m d :
  0 <= m <= 11 -> MakeDay y (m + 1) d = MakeDay y m (d + days_in_month y m).
Proof.
  intros Hm. destruct (Z.eq_dec m 11) as [-> | Hne].
  - rewrite (MakeDay_in_year y 11) by lia. unfold MakeDay. cbv zeta.
    change ((11 + 1) / 12) with 1. change ((11 + 1) mod 12) with 0.
    simpl DayFromMonth. rewrite DayFromYear_succ, DaysInYear_leap.
    unfold days_in_month. destruct (is_leap_year y); lia.
  - rewrite !MakeDay_in_year by lia. unfold days_in_month.
    month_cases m; try lia; destruct (is_leap_year y); simpl; lia.
Qed.

(** January is preceded by the December of the year before. *)
Lemma MakeDay_prev_year y d : MakeDay y (-1) d = MakeDay (y - 1) 11 d.
Proof.
  unfold MakeDay. cbv zeta.
  change (-1 / 12) with (-1). change (-1 mod 12) with 11.
  change (11 / 12) with 0. change (11 mod 12) with 11.
  replace (y + -1) with (y - 1 + 0) by lia. reflexivity.
Qed.

(** Zeller's congruence agrees with the day numbering of the standard. *)
Lemma weekday_MakeDay y m d :
  0 <= m <= 11 -> (MakeDay y m d + 4) mod 7 = weekday y m d.
Proof.
  intros Hm. rewrite MakeDay_in_year by assumption.
  unfold weekday, DayFromYear, is_leap_year. cbv zeta.
  destruct (Z.ltb_spec m 2) as [Hlt | Hge];
    month_cases m; try lia; simpl DayFromMonth; simpl (13 * _ / 5).
  all: destruct (y mod 4 =? 0) eqn:E4, (y mod 100 =? 0) eqn:E100,
                (y mod 400 =? 0) eqn:E400;
    simpl andb; simpl orb; simpl negb; cbv iota; bool_to_prop;
    try (exfalso; div_lia).
  all: div_lia.
Qed.

Lemma days_in_month_range y m : 28 <= days_in_month y m <= 31.
Proof. unfold days_in_month. repeat case_match; lia. Qed.

Lemma MakeDay_month_12 y d : MakeDay y 12 d = MakeDay (y + 1) 0 d.
Proof.
  unfold MakeDay. cbv zeta. change (12 / 12) with 1. change (12 mod 12) with 0.
  change (0 / 12) with 0. change (0 mod 12) with 0.
  replace (y + 1 + 0) with (y + 1) by lia. simpl DayFromMonth. lia.
Qed.

(** The calendar fields of the next day are those of the day after. *)
Lemma fields_next_day t1 t2 :
  Day t2 = Day t1 + 1 ->
  (YearFromTime t2, MonthFromTime t2, DateFromTime t2)
  = next_day (YearFromTime t1, MonthFromTime t1, DateFromTime t1).
Proof.
  intros Hday. pose proof (MakeDay_of_time t1) as Hmk.
  pose proof (DateFromTime_spec t1) as [_ Hd]. pose proof (MonthFromTime_range t1) as Hm.
  revert Hmk Hd Hm.
  generalize (YearFromTime t1) (MonthFromTime t1) (DateFromTime t1). intros y m d Hmk Hd Hm.
  unfold next_day.
  assert (forall y' m' d', 0 <= m' <= 11 -> 1 <= d' <= days_in_month y' m' ->
            Day t2 = MakeDay y' m' d' ->
            (YearFromTime t2, MonthFromTime t2, DateFromTime t2) = (y', m', d')) as Hfields.
  { intros y' m' d' Hm' Hd' Heq.
    pose proof (fields_of_MakeDay y' m' d' t2 Hm' Hd' Heq) as (E1 & E2 & E3).
    by rewrite E1, E2, E3. }
  destruct (Z.ltb_spec d (days_in_month y m)); [|destruct (Z.ltb_spec m 11)].
  - apply Hfields; [lia..|]. rewrite MakeDay_date_shift. lia.
  - apply Hfields; [lia|pose proof (days_in_month_range y (m + 1)); lia|].
    rewrite MakeDay_next_month by lia.
    replace (1 + days_in_month y m) with (d + 1) by lia.
    rewrite MakeDay_date_shift. lia.
  - assert (m = 11) as -> by lia. apply Hfields; [lia|simpl; lia|].
    rewrite <- MakeDay_month_12. change 12 with (11 + 1).
    rewrite MakeDay_next_month by lia.
    replace (1 + days_in_month y 11) with (d + 1) by lia.
    rewrite MakeDay_date_shift. lia.
Qed.

Lemma fields_of_Day t1 t2 :
  Day t1 = Day t2 ->
  YearFromTime t1 = YearFromTime t2 /\ MonthFromTime t1 = MonthFromTime t2 /\
  DateFromTime t1 = DateFromTime t2.
Proof.
  intros H.
  assert (YearFromTime t1 = YearFromTime t2) as Hy
    by (unfold YearFromTime; by rewrite H).
  assert (DayWithinYear t1 = DayWithinYear t2) as Hw
    by (unfold DayWithinYear; by rewrite H, Hy).
  assert (InLeapYear t1 = InLeapYear t2) as Hl
    by (unfold InLeapYear; by rewrite Hy).
  assert (MonthFromTime t1 = MonthFromTime t2) as Hm
    by (unfold MonthFromTime; by rewrite Hw, Hl).
  repeat split; try assumption. unfold DateFromTime. by rewrite Hw, Hl, Hm.
Qed.

Lemma DayFromYear_le y y' : y <= y' -> DayFromYear y <= DayFromYear y'.
Proof. unfold DayFromYear. intros. div_lia. Qed.

(** Day numbers of the years a Date can hold, a few weeks around their
    months included, stay clear of the ends of the range. *)
Lemma MakeDay_bounds y m dt :
  -271820 <= y <= 275759 -> -1 <= m <= 12 -> -7 <= dt <= 50 ->
  -99999800 <= MakeDay y m dt <= 99999800.
Proof.
  intros Hy Hm Hdt.
  assert (-100000109 <= DayFromYear (y - 1)) as Hprev
    by (apply (DayFromYear_le (-271821)); lia).
  assert (-99999744 <= DayFromYear y) as Hlo
    by (apply (DayFromYear_le (-271820)); lia).
  assert (DayFromYear y <= 99999379) as Hhi
    by (apply (DayFromYear_le y 275759); lia).
  assert (DayFromYear (y + 1) <= 99999744) as Hnext
    by (apply (DayFromYear_le (y + 1) 275760); lia).
  destruct (Z.eq_dec m 12) as [-> | ?]; [|destruct (Z.eq_dec m (-1)) as [-> | ?]].
  - rewrite MakeDay_month_12, MakeDay_in_year by lia. simpl DayFromMonth.
    pose proof (DayFromYear_le y (y + 1)). lia.
  - rewrite MakeDay_prev_year, MakeDay_in_year by lia.
    pose proof (DayFromYear_le (y - 1) y).
    destruct (is_leap_year (y - 1)); simpl DayFromMonth; lia.
  - rewrite MakeDay_in_year by lia.
    month_cases m; try lia; destruct (is_leap_year y); simpl DayFromMonth; lia.
Qed.


End DateFacts.

(* ================================================================== *)
(** * Facts about time zones *)
(* ================================================================== *)

Module ZoneFacts.
Import JS Zones DateFacts.

Lemma offset_from_In offset cs t :
  In (offset_from offset cs t) (offset :: List.map snd cs).
Proof.
  revert offset. induction cs as [|[T o'] cs IH]; intros offset;
    cbn [offset_from List.map snd]; [by left|].
  case_match; [by left | right; apply IH].
Qed.

Lemma offset_between lo hi zone t :
  offsets_between lo hi zone -> lo <= GetNamedTimeZoneOffset zone t <= hi.
Proof.
  unfold offsets_between. rewrite List.Forall_forall. intros H.
  apply H, offset_from_In.
Qed.

Lemma fold_min_In u l : In (fold_right Z.min u l) (u :: l).
Proof.
  induction l as [|v l IH]; cbn [fold_right]; [by left|].
  destruct (Z.min_spec v (fold_right Z.min u l)) as [[_ ->] | [_ ->]].
  - right. by left.
  - destruct IH as [IH | IH]; [by left | right; by right].
Qed.

Lemma fold_max_In u l : In (fold_right Z.max u l) (u :: l).
Proof.
  induction l as [|v l IH]; cbn [fold_right]; [by left|].
  destruct (Z.max_spec v (fold_right Z.max u l)) as [[_ ->] | [_ ->]].
  - destruct IH as [IH | IH]; [by left | right; by right].
  - right. by left.
Qed.

Lemma fold_max_ge u l v : In v (u :: l) -> v <= fold_right Z.max u l.
Proof.
  induction l as [|w l IH]; cbn [fold_right].
  - intros [-> | []]. lia.
  - intros [-> | [-> | H]]; [pose proof (IH (or_introl eq_refl)) | | pose proof (IH (or_intror H))]; lia.
Qed.

Lemma earliest_In l u : earliest l = Some u -> In u l.
Proof. destruct l; [discriminate|]. intros [= <-]. apply fold_min_In. Qed.

Lemma latest_In l u : latest l = Some u -> In u l.
Proof. destruct l; [discriminate|]. intros [= <-]. apply fold_max_In. Qed.

Lemma latest_ge l u v : latest l = Some u -> In v l -> v <= u.
Proof. destruct l; [discriminate|]. intros [= <-]. apply fold_max_ge. Qed.

Lemma latest_None l : latest l = None -> l = [].
Proof. by destruct l. Qed.

Lemma earliest_None l : earliest l = None -> l = [].
Proof. by destruct l. Qed.

(** The instants listed for a local time are the instants that show it. *)
Lemma GetNamedTimeZoneEpoch_spec zone t u :
  In u (GetNamedTimeZoneEpoch zone t) <-> LocalTime zone u = t.
Proof.
  unfold GetNamedTimeZoneEpoch. rewrite filter_In, in_map_iff, Z.eqb_eq.
  split; [tauto|]. intros H. split; [|exact H].
  exists (GetNamedTimeZoneOffset zone u). split; [unfold LocalTime in H; lia|].
  apply offset_from_In.
Qed.

Lemma first_offset_at zone : exists u, GetNamedTimeZoneOffset zone u = first_offset zone.
Proof.
  unfold GetNamedTimeZoneOffset. destruct (changes zone) as [|[T o] cs].
  - by exists 0.
  - exists (T - 1). cbn [offset_from]. by rewrite (proj2 (Z.ltb_lt (T - 1) T)) by lia.
Qed.

(** [UTC] takes off the offset in force at some instant; when the clock
    showed the local time, at an instant that shows it. *)
Lemma UTC_cases zone t :
  LocalTime zone (UTC zone t) = t \/
  ((forall u, LocalTime zone u <> t) /\
   exists u, UTC zone t = t - GetNamedTimeZoneOffset zone u).
Proof.
  unfold UTC. destruct (earliest (GetNamedTimeZoneEpoch zone t)) as [u|] eqn:E.
  - left. apply earliest_In, GetNamedTimeZoneEpoch_spec in E.
    replace (t - GetNamedTimeZoneOffset zone u) with u
      by (unfold LocalTime in E; lia).
    exact E.
  - right. split.
    + intros u Hu. apply GetNamedTimeZoneEpoch_spec in Hu.
      apply earliest_None in E. by rewrite E in Hu.
    + destruct (tBefore zone t) as [t'|];
        [destruct (latest (GetNamedTimeZoneEpoch zone t')) as [u|]|].
      * by exists u.
      * destruct (first_offset_at zone) as [u <-]. by exists u.
      * destruct (first_offset_at zone) as [u <-]. by exists u.
Qed.

Lemma UTC_offset zone t : exists u, UTC zone t = t - GetNamedTimeZoneOffset zone u.
Proof.
  destruct (UTC_cases zone t) as [H | [_ H]]; [|exact H].
  exists (UTC zone t). unfold LocalTime in H. lia.
Qed.

(** Where the offset differs between two instants, a change lies between
    them. *)
Lemma offset_from_change offset cs a b :
  a <= b -> offset_from offset cs a <> offset_from offset cs b ->
  exists T, In T (List.map fst cs) /\ a < T <= b.
Proof.
  revert offset. induction cs as [|[T o'] cs IH]; intros offset Hab Hne;
    cbn [offset_from] in Hne; [contradiction|].
  destruct (Z.ltb_spec a T), (Z.ltb_spec b T); try contradiction; try lia.
  - exists T. split; [by left|lia].
  - destruct (IH o' Hab Hne) as (T' & HT' & Hb). exists T'. split; [by right|exact Hb].
Qed.

Lemma spaced_from_later T cs T' :
  spaced_from T cs -> In T' (List.map fst cs) -> T + msPerDay <= T'.
Proof.
  revert T. induction cs as [|[T1 o1] cs IH]; intros T Hs Hin; [destruct Hin|].
  destruct Hs as [H1 Hs]. destruct Hin as [<- | Hin]; [exact H1|].
  specialize (IH T1 Hs Hin). unfold msPerDay in *. lia.
Qed.

Lemma spaced_apart_list cs T T' :
  match cs with [] => True | (T0, _) :: cs' => spaced_from T0 cs' end ->
  In T (List.map fst cs) -> In T' (List.map fst cs) ->
  T = T' \/ T + msPerDay <= T' \/ T' + msPerDay <= T.
Proof.
  induction cs as [|[T0 o0] cs IH]; intros Hs HT HT'; [destruct HT|].
  cbn [List.map fst In] in HT, HT'.
  destruct HT as [<- | HT], HT' as [<- | HT'].
  - by left.
  - right. left. by eapply spaced_from_later.
  - right. right. by eapply spaced_from_later.
  - apply IH; [|assumption..]. destruct cs as [|[T1 o1] cs]; [exact I|]. apply Hs.
Qed.

(** Two changes of a spaced zone are a day apart. *)
Lemma spaced_apart zone T T' :
  spaced zone -> In T (List.map fst (changes zone)) -> In T' (List.map fst (changes zone)) ->
  T = T' \/ T + msPerDay <= T' \/ T' + msPerDay <= T.
Proof. unfold spaced. apply spaced_apart_list. Qed.

Lemma offset_change zone a b :
  a <= b -> GetNamedTimeZoneOffset zone a <> GetNamedTimeZoneOffset zone b ->
  exists T, In T (List.map fst (changes zone)) /\ a < T <= b.
Proof. apply offset_from_change. Qed.

(** Through the day before a change the offset is the one the change
    ends. *)
Lemma offset_before_change zone T a :
  spaced zone -> In T (List.map fst (changes zone)) -> T - msPerDay < a < T ->
  GetNamedTimeZoneOffset zone a = GetNamedTimeZoneOffset zone (T - 1).
Proof.
  intros Hs HT Ha.
  destruct (Z.eq_dec (GetNamedTimeZoneOffset zone a) (GetNamedTimeZoneOffset zone (T - 1)))
    as [E | Hne]; [exact E|].
  destruct (offset_change zone a (T - 1) ltac:(lia) Hne) as (T' & HT' & Hb).
  destruct (spaced_apart zone T T' Hs HT HT') as [-> | [H | H]]; lia.
Qed.

(** The local time of the millisecond before a change is one of the
    candidates of [tBefore]. *)
Lemma tBefore_greatest zone t t' T :
  tBefore zone t = Some t' -> In T (List.map fst (changes zone)) ->
  LocalTime zone (T - 1) < t -> LocalTime zone (T - 1) <= t'.
Proof.
  unfold tBefore. intros Hl HT Hlt. eapply latest_ge; [exact Hl|].
  apply filter_In. split; [|by apply Z.ltb_lt].
  apply in_map_iff in HT as ([T0 o0] & <- & Hin).
  apply in_map_iff. by exists (T0, o0).
Qed.

Lemma tBefore_before zone t t' : tBefore zone t = Some t' -> t' < t.
Proof.
  unfold tBefore. intros Hl. apply latest_In, filter_In in Hl as [_ Hl].
  by apply Z.ltb_lt.
Qed.

Lemma tBefore_shown zone t t' :
  tBefore zone t = Some t' -> exists u, LocalTime zone u = t'.
Proof.
  unfold tBefore. intros Hl. apply latest_In, filter_In in Hl as [Hl _].
  apply in_map_iff in Hl as (c & <- & _). by eexists.
Qed.

(** A local time the clock skipped has local times before it that the
    clock showed. *)
Lemma tBefore_defined zone t :
  (forall u, LocalTime zone u <> t) -> exists t', tBefore zone t = Some t'.
Proof.
  intros Hskip. unfold tBefore.
  destruct (latest _) as [t'|] eqn:E; [by eexists|]. exfalso.
  apply latest_None in E.
  destruct (changes zone) as [|[T o] cs] eqn:Ecs.
  - apply (Hskip (t - first_offset zone)).
    unfold LocalTime, GetNamedTimeZoneOffset. rewrite Ecs. cbn. lia.
  - cbn [List.map List.filter fst] in E.
    destruct (Z.ltb_spec (LocalTime zone (T - 1)) t) as [Hlt | Hge]; [discriminate E|].
    apply (Hskip (t - first_offset zone)).
    unfold LocalTime, GetNamedTimeZoneOffset in *. rewrite Ecs in *.
    cbn [offset_from] in *.
    rewrite (proj2 (Z.ltb_lt (T - 1) T)) in Hge by lia.
    rewrite (proj2 (Z.ltb_lt (t - first_offset zone) T)) by lia. lia.
Qed.

(** What [UTC] does with a local time the clock skipped. *)
Lemma UTC_skipped zone t :
  (forall u, LocalTime zone u <> t) ->
  exists t' u,
    tBefore zone t = Some t' /\ LocalTime zone u = t' /\
    UTC zone t = t - GetNamedTimeZoneOffset zone u.
Proof.
  intros Hskip. destruct (tBefore_defined zone t Hskip) as [t' Ht'].
  destruct (tBefore_shown zone t t' Ht') as [u0 Hu0].
  apply GetNamedTimeZoneEpoch_spec in Hu0.
  unfold UTC. destruct (earliest _) as [u|] eqn:E.
  { apply earliest_In, GetNamedTimeZoneEpoch_spec in E. by apply Hskip in E. }
  rewrite Ht'. destruct (latest (GetNamedTimeZoneEpoch zone t')) as [u|] eqn:El.
  - exists t', u. split; [reflexivity|]. split; [|reflexivity].
    by apply latest_In, GetNamedTimeZoneEpoch_spec in El.
  - apply latest_None in El. by rewrite El in Hu0.
Qed.

Lemma fold_min_le u l v : In v (u :: l) -> fold_right Z.min u l <= v.
Proof.
  induction l as [|w l IH]; cbn [fold_right].
  - intros [-> | []]. lia.
  - intros [-> | [-> | H]]; [pose proof (IH (or_introl eq_refl)) | | pose proof (IH (or_intror H))]; lia.
Qed.

Lemma earliest_le l u v : earliest l = Some u -> In v l -> u <= v.
Proof. destruct l; [discriminate|]. intros [= <-]. apply fold_min_le. Qed.

(** A local time the clock showed is read as the first instant that
    shows it. *)
Lemma UTC_first zone t u :
  LocalTime zone u = t -> LocalTime zone (UTC zone t) = t /\ UTC zone t <= u.
Proof.
  intros Hu. apply GetNamedTimeZoneEpoch_spec in Hu. unfold UTC.
  destruct (earliest (GetNamedTimeZoneEpoch zone t)) as [u0|] eqn:E.
  - pose proof (earliest_le _ _ _ E Hu) as Hle.
    apply earliest_In, GetNamedTimeZoneEpoch_spec in E.
    replace (t - GetNamedTimeZoneOffset zone u0) with u0
      by (unfold LocalTime in E; lia).
    split; [exact E | exact Hle].
  - apply earliest_None in E. rewrite E in Hu. destruct Hu.
Qed.

Lemma offsets_bounded zone : exists lo hi, offsets_between lo hi zone.
Proof.
  unfold offsets_between.
  generalize (first_offset zone :: List.map snd (changes zone)). intros l.
  induction l as [|o l (lo & hi & IH)].
  - exists 0, 0. constructor.
  - exists (Z.min lo o), (Z.max hi o). constructor; [lia|].
    eapply Forall_impl; [|exact IH]. cbn. intros. lia.
Qed.

(** [tBefore] is what the standard asks for: when the clock skipped [t],
    no local time it showed lies between [tBefore t] and [t]. *)
Lemma tBefore_largest zone t t' u :
  (forall v, LocalTime zone v <> t) -> tBefore zone t = Some t' ->
  LocalTime zone u < t -> LocalTime zone u <= t'.
Proof.
  intros Hskip Ht' Hu. destruct (offsets_bounded zone) as (lo & hi & Hoff).
  assert (forall n : nat, forall u, t - lo - u <= Z.of_nat n ->
            LocalTime zone u < t -> LocalTime zone u <= t') as Hind;
    [|apply (Hind (Z.to_nat (t - lo - u)) u); [lia|exact Hu]].
  clear u Hu. induction n as [|n IH]; intros u Hn Hu.
  - pose proof (offset_between lo hi zone u Hoff). unfold LocalTime in *. lia.
  - destruct (Z.eq_dec (GetNamedTimeZoneOffset zone u)
                       (GetNamedTimeZoneOffset zone (u + 1))) as [E | Hne].
    + assert (LocalTime zone (u + 1) < t) as Hu1.
      { pose proof (Hskip (u + 1)). unfold LocalTime in *. lia. }
      pose proof (IH (u + 1) ltac:(lia) Hu1). unfold LocalTime in *. lia.
    + destruct (offset_change zone u (u + 1) ltac:(lia) Hne) as (T & HT & Hb).
      assert (T = u + 1) as -> by lia.
      replace u with (u + 1 - 1) by lia.
      apply (tBefore_greatest zone t t' (u + 1) Ht' HT).
      by replace (u + 1 - 1) with u by lia.
Qed.

(** The instant whose offset [UTC] takes for a skipped local time is the
    last one that shows [tBefore]. *)
Lemma UTC_skipped_last zone t t' :
  (forall v, LocalTime zone v <> t) -> tBefore zone t = Some t' ->
  exists u, LocalTime zone u = t' /\ (forall v, LocalTime zone v = t' -> v <= u) /\
    UTC zone t = t - GetNamedTimeZoneOffset zone u.
Proof.
  intros Hskip Ht'. unfold UTC.
  destruct (earliest _) as [u|] eqn:E.
  { apply earliest_In, GetNamedTimeZoneEpoch_spec in E. by apply Hskip in E. }
  rewrite Ht'. destruct (tBefore_shown zone t t' Ht') as [u0 Hu0].
  apply GetNamedTimeZoneEpoch_spec in Hu0.
  destruct (latest (GetNamedTimeZoneEpoch zone t')) as [u|] eqn:El.
  - exists u. split; [by apply latest_In, GetNamedTimeZoneEpoch_spec in El|].
    split; [|reflexivity]. intros v Hv. apply GetNamedTimeZoneEpoch_spec in Hv.
    by eapply latest_ge.
  - apply latest_None in El. by rewrite El in Hu0.
Qed.

(** With changes a day apart and offsets within a day of one another,
    [UTC] never lands on an earlier local time. *)
Lemma spaced_never_back zone : offsets_close zone -> spaced zone -> never_back zone.
Proof.
  intros (lo & hi & Hlo & Hhi & Hclose & Hoff) Hs t.
  destruct (UTC_cases zone t) as [-> | [Hskip _]]; [lia|].
  destruct (UTC_skipped zone t Hskip) as (t' & u' & Ht' & Hu' & ->).
  pose proof (tBefore_before zone t t' Ht') as Hlt.
  set (o' := GetNamedTimeZoneOffset zone u') in *.
  set (u := t - o').
  destruct (Z_le_gt_dec o' (GetNamedTimeZoneOffset zone u)) as [Hle | Hgt].
  { unfold LocalTime. fold u. lia. }
  exfalso. set (o := GetNamedTimeZoneOffset zone u) in *.
  pose proof (offset_between lo hi zone u Hoff) as Bu. fold o in Bu.
  pose proof (offset_between lo hi zone u' Hoff) as Bu'. fold o' in Bu'.
  assert (u' < u) as Huu by (unfold u, LocalTime in *; fold o' in Hu'; lia).
  (* the instant that would show [t] with the offset of [u] *)
  assert (GetNamedTimeZoneOffset zone u <> GetNamedTimeZoneOffset zone (t - o)) as Hne.
  { fold o. intros E. apply (Hskip (t - o)). unfold LocalTime. rewrite <- E. lia. }
  destruct (offset_change zone u (t - o) ltac:(unfold u; lia) Hne) as (T1 & HT1 & Hb1).
  assert (GetNamedTimeZoneOffset zone (T1 - 1) = o) as E1.
  { destruct (Z.eq_dec u (T1 - 1)) as [<- | ?]; [reflexivity|].
    symmetry. apply offset_before_change; [assumption..|]. unfold u in *. lia. }
  assert (LocalTime zone (T1 - 1) <= t') as Hmax.
  { apply (tBefore_greatest zone t t' T1 Ht' HT1). unfold LocalTime. rewrite E1. lia. }
  unfold LocalTime in Hmax, Hu'. rewrite E1 in Hmax. fold o' in Hu'.
  assert (GetNamedTimeZoneOffset zone u' <> GetNamedTimeZoneOffset zone u) as Hne'
    by (fold o o'; lia).
  destruct (offset_change zone u' u ltac:(lia) Hne') as (T2 & HT2 & Hb2).
  destruct (spaced_apart zone T1 T2 Hs HT1 HT2) as [-> | [H | H]]; unfold u in *; lia.
Qed.

Lemma LocalTime_fixed offset t : LocalTime (fixed_zone offset) t = t + offset.
Proof. reflexivity. Qed.

Lemma UTC_fixed offset t : UTC (fixed_zone offset) t = t - offset.
Proof.
  destruct (UTC_offset (fixed_zone offset) t) as [u ->]. reflexivity.
Qed.

Lemma LocalTime_UTC_fixed offset t :
  LocalTime (fixed_zone offset) (UTC (fixed_zone offset) t) = t.
Proof. rewrite UTC_fixed, LocalTime_fixed. lia. Qed.

Lemma regular_fixed offset :
  - msPerDay < offset < msPerDay -> regular (fixed_zone offset).
Proof.
  intros H. split; [|exact I].
  exists offset, offset. unfold offsets_between. cbn.
  repeat split; try lia. repeat constructor; lia.
Qed.

Lemma regular_new_york_2024 : regular new_york_2024.
Proof.
  split.
  - exists (-18000000), (-14400000). unfold offsets_between, msPerDay. cbn.
    repeat split; try lia. repeat constructor; lia.
  - unfold spaced. cbn. unfold msPerDay. lia.
Qed.

Lemma regular_london_2024 : regular london_2024.
Proof.
  split.
  - exists 0, 3600000. unfold offsets_between, msPerDay. cbn.
    repeat split; try lia. repeat constructor; lia.
  - unfold spaced. cbn. unfold msPerDay. lia.
Qed.

(** With close offsets, [UTC] moves a local time by less than a day, the
    local time of the instant it gives is less than a day from the local
    time asked for, and a day later on the clock is a later instant. *)
Lemma UTC_bounds zone t :
  offsets_close zone -> t - msPerDay < UTC zone t < t + msPerDay.
Proof.
  intros (lo & hi & Hlo & Hhi & _ & Hoff).
  destruct (UTC_offset zone t) as [u ->].
  pose proof (offset_between lo hi zone u Hoff). lia.
Qed.

Lemma UTC_next_day zone t :
  offsets_close zone -> UTC zone t < UTC zone (t + msPerDay).
Proof.
  intros (lo & hi & Hlo & Hhi & Hclose & Hoff).
  destruct (UTC_offset zone t) as [u ->].
  destruct (UTC_offset zone (t + msPerDay)) as [u' ->].
  pose proof (offset_between lo hi zone u Hoff).
  pose proof (offset_between lo hi zone u' Hoff). lia.
Qed.

Lemma LocalTime_UTC_bounds zone t :
  regular zone -> t <= LocalTime zone (UTC zone t) < t + msPerDay.
Proof.
  intros [Hc Hs]. pose proof (spaced_never_back zone Hc Hs) as Hback.
  destruct Hc as (lo & hi & Hlo & Hhi & Hclose & Hoff). split; [apply Hback|].
  destruct (UTC_offset zone t) as [u Hu]. unfold LocalTime. rewrite Hu at 1.
  pose proof (offset_between lo hi zone u Hoff).
  pose proof (offset_between lo hi zone (UTC zone t) Hoff). lia.
Qed.

(** Local midnight of a day, turned into an instant, is an instant of
    that day on the local clock. *)
Lemma Day_LocalTime_UTC zone day :
  regular zone -> Day (LocalTime zone (UTC zone (MakeDate day 0))) = day.
Proof.
  intros H. pose proof (LocalTime_UTC_bounds zone (MakeDate day 0) H) as Hb.
  revert Hb. generalize (LocalTime zone (UTC zone (MakeDate day 0))). intros x.
  unfold Day, MakeDate, msPerDay. intros. Z.to_euclidean_division_equations; lia.
Qed.

Lemma offsets_close_west zone : west zone -> offsets_close zone.
Proof. intros H. exists (1 - msPerDay), 0. unfold msPerDay in *. repeat split; (lia || exact H). Qed.

Lemma offsets_close_east zone : east zone -> offsets_close zone.
Proof. intros H. exists 1, (msPerDay - 1). unfold msPerDay in *. repeat split; (lia || exact H). Qed.


Lemma shown_fixed offset t : shown (fixed_zone offset) t.
Proof. apply LocalTime_UTC_fixed. Qed.

(** A Date built from local fields away from the ends of the range is a
    valid one. *)
Lemma TimeClip_UTC zone day time :
  offsets_close zone -> -99999800 <= day <= 99999800 -> 0 <= time < msPerDay ->
  TimeClip (UTC zone (MakeDate day time)) = Num (UTC zone (MakeDate day time)).
Proof.
  intros Hz Hd Ht. pose proof (UTC_bounds zone (MakeDate day time) Hz) as Hb.
  unfold TimeClip. case_match; [|reflexivity]. bool_to_prop.
  unfold MakeDate, msPerDay in *. lia.
Qed.

End ZoneFacts.


(* ================================================================== *)
(** * The calendar grid *)
(* ================================================================== *)

Module GridFacts.
Import JS Calendar Civil Zones DateFacts ZoneFacts.

Lemma for_upto_push {A} (f : Z -> A) n i acc :
  for_upto n i (fun j acc => push acc (f j)) acc
  = acc ++ (f <$> seqZ i (Z.of_nat n)).
Proof.
  revert i acc. induction n as [|n IH]; intros i acc.
  - cbn [for_upto]. rewrite seqZ_nil by lia. cbn [fmap list_fmap]. by rewrite app_nil_r.
  - cbn [for_upto]. rewrite IH. unfold push. rewrite <- app_assoc. f_equal.
    rewrite (seqZ_cons i) by lia. cbn [fmap list_fmap app]. do 2 f_equal.
    f_equal. lia.
Qed.

Lemma for_lt_push {A} (f : Z -> A) a b acc :
  for_lt a (Num b) (fun j acc => push acc (f j)) acc = acc ++ (f <$> seqZ a (b - a)).
Proof.
  unfold for_lt. rewrite for_upto_push. do 2 f_equal.
  destruct (Z_le_gt_dec 0 (b - a)).
  - by rewrite Z2Nat.id.
  - rewrite Z2Nat.nonpos by lia. by rewrite !seqZ_nil by lia.
Qed.

Lemma for_le_push {A} (f : Z -> A) a b acc :
  for_le a (Num b) (fun j acc => push acc (f j)) acc = acc ++ (f <$> seqZ a (b + 1 - a)).
Proof. apply (for_lt_push f a (b + 1)). Qed.

(** The grid has 42 entries whatever the two counts read off the Dates are,
    as long as a weekday is at most 6 and a date at most 31. *)
Lemma grid_length (f1 f2 f3 : Z -> Cell) (w dim : number) :
  (w = NaN \/ exists n, w = Num n /\ 0 <= n <= 6) ->
  (dim = NaN \/ exists n, dim = Num n /\ 1 <= n <= 31) ->
  let days := for_lt 0 w (fun i days => push days (f1 i)) [] in
  let days := for_le 1 dim (fun i days => push days (f2 i)) days in
  let remainingCells := 42 - Z.of_nat (length days) in
  length (for_le 1 (Num remainingCells) (fun i days => push days (f3 i)) days) = 42%nat.
Proof.
  intros Hw Hdim. cbv zeta.
  rewrite for_le_push, length_app, length_fmap, length_seqZ.
  assert (length (for_le 1 dim (fun i days => push days (f2 i))
                    (for_lt 0 w (fun i days => push days (f1 i)) [])) <= 37)%nat; [|lia].
  destruct Hw as [-> | (n & -> & Hn)], Hdim as [-> | (d & -> & Hd)];
    rewrite ?for_le_push, ?for_lt_push; cbn [for_le for_lt];
    rewrite ?length_app, ?length_fmap, ?length_seqZ; simpl length; lia.
Qed.


Lemma getDay_cases zone d :
  getDay zone d = NaN \/ exists n, getDay zone d = Num n /\ 0 <= n <= 6.
Proof.
  destruct d as [|t]; [by left|]. right. eexists. split; [reflexivity|].
  apply WeekDay_range.
Qed.

Lemma getDate_cases zone d :
  getDate zone d = NaN \/ exists n, getDate zone d = Num n /\ 1 <= n <= 31.
Proof.
  destruct d as [|t]; [by left|]. right. eexists. split; [reflexivity|].
  apply DateFromTime_range.
Qed.

(** C1. For every Date handed to it (every year and month a Date can
    carry, and an Invalid Date too) and every time zone of the host,
    whatever its offsets and its changes of offset, [getDaysInMonth]
    returns a list of exactly 42 cells; the function is total, it has no
    failing case. *)
Theorem getDaysInMonth_length zone date :
  length (getDaysInMonth zone date) = 42%nat.
Proof.
  unfold getDaysInMonth. cbv zeta.
  apply grid_length; [apply getDay_cases | apply getDate_cases].
Qed.

(** Every Date the grid builder makes for a plain year is a valid one. *)
Lemma new_Date_plain zone y m dt :
  plain_year y -> offsets_close zone -> 0 <= m <= 12 -> -7 <= dt <= 50 ->
  new_Date zone (Num y) (Num m) (Num dt)
  = Num (UTC zone (MakeDate (MakeDay y m dt) 0)).
Proof.
  intros Hy Hz Hm Hdt. unfold new_Date.
  replace ((0 <=? y) && (y <=? 99)) with false
    by (symmetry; apply andb_false_iff; unfold plain_year in Hy; lia).
  unfold MakeTime. rewrite !Z.mul_0_l, !Z.add_0_l.
  apply TimeClip_UTC; [assumption| |unfold msPerDay; lia].
  apply MakeDay_bounds; unfold plain_year in Hy; lia.
Qed.

Lemma fmap_seqZ_ext {A} (f g : Z -> A) a n :
  (forall k, a <= k < a + n -> f k = g k) -> f <$> seqZ a n = g <$> seqZ a n.
Proof. intros H. apply Forall_fmap_ext_1, Forall_seqZ, H. Qed.

Lemma fmap_seqZ_shift {A} (g : Z -> A) a b n :
  g <$> seqZ (a + b) n = (fun k => g (a + k)) <$> seqZ b n.
Proof. by rewrite <- fmap_add_seqZ, <- list_fmap_compose. Qed.

Lemma seqZ_split w dim :
  0 <= w -> 0 <= dim -> w + dim <= 42 ->
  seqZ 0 42 = seqZ 0 w ++ seqZ w dim ++ seqZ (w + dim) (42 - w - dim).
Proof.
  intros. replace 42 with (w + (dim + (42 - w - dim))) at 1 by lia.
  by rewrite !seqZ_app by lia.
Qed.

(** The grid of a plain year, cell by cell: cell [k] is local midnight
    [k - w] days from the first of the month (or the first instant after
    it, on a day whose midnight the clock skipped), [w] being the weekday
    of the first, and the flag is set on the days of the month. *)
Lemma getDaysInMonth_grid zone t :
  let y := YearFromTime (LocalTime zone t) in
  let m := MonthFromTime (LocalTime zone t) in
  let w := weekday y m 1 in
  plain_year y -> regular zone ->
  getDaysInMonth zone (Num t)
  = (fun k => {| date := Num (UTC zone (MakeDate (MakeDay y m (1 + k - w)) 0));
                 isCurrentMonth := (w <=? k) && (k <? w + days_in_month y m) |})
    <$> seqZ 0 42.
Proof.
  intros y m w Hy Hz. pose proof (proj1 Hz) as Hclose.
  assert (0 <= m <= 11) as Hm by apply MonthFromTime_range.
  assert (0 <= w <= 6) as Hw.
  { unfold w. rewrite <- (weekday_MakeDay y m 1) by assumption. div_lia. }
  pose proof (days_in_month_range y m) as Hdim.
  unfold getDaysInMonth. cbn [getFullYear getMonth num_add]. fold y m.
  rewrite (new_Date_plain zone y m 1), (new_Date_plain zone y (m + 1) 0)
    by (assumption || lia).
  cbn [getDay getDate].
  assert (WeekDay (LocalTime zone (UTC zone (MakeDate (MakeDay y m 1) 0))) = w) as ->.
  { unfold WeekDay. rewrite Day_LocalTime_UTC by assumption.
    by apply weekday_MakeDay. }
  assert (DateFromTime (LocalTime zone (UTC zone (MakeDate (MakeDay y (m + 1) 0) 0)))
          = days_in_month y m) as ->.
  { rewrite MakeDay_next_month by assumption.
    apply (fields_of_MakeDay y m); [assumption|lia|].
    rewrite Day_LocalTime_UTC by assumption. f_equal; lia. }
  cbv zeta. cbn [num_neg num_add].
  rewrite !for_lt_push, !for_le_push, app_nil_l, !length_app, !length_fmap, !length_seqZ.
  replace (w - 0) with w by lia.
  replace (days_in_month y m + 1 - 1) with (days_in_month y m) by lia.
  replace (42 - Z.of_nat (Z.to_nat w + Z.to_nat (days_in_month y m)) + 1 - 1)
    with (42 - w - days_in_month y m) by lia.
  rewrite (seqZ_split w (days_in_month y m)), !fmap_app, <- app_assoc by lia.
  f_equal; [|f_equal].
  - apply fmap_seqZ_ext. intros k Hk.
    rewrite new_Date_plain by (assumption || lia).
    replace ((w <=? k) && (k <? w + days_in_month y m)) with false
      by (symmetry; apply andb_false_iff; lia).
    do 5 f_equal. lia.
  - replace (seqZ w (days_in_month y m))
      with (seqZ (w - 1 + 1) (days_in_month y m)) by (f_equal; lia).
    rewrite fmap_seqZ_shift.
    apply fmap_seqZ_ext. intros k Hk.
    rewrite new_Date_plain by (assumption || lia).
    replace ((w <=? w - 1 + k) && (w - 1 + k <? w + days_in_month y m)) with true
      by (symmetry; apply andb_true_iff; lia).
    do 5 f_equal. lia.
  - replace (seqZ (w + days_in_month y m) (42 - w - days_in_month y m))
      with (seqZ (w + days_in_month y m - 1 + 1) (42 - w - days_in_month y m))
      by (f_equal; lia).
    rewrite fmap_seqZ_shift. apply fmap_seqZ_ext. intros k Hk.
    rewrite new_Date_plain by (assumption || lia).
    rewrite MakeDay_next_month by assumption.
    replace ((w <=? w + days_in_month y m - 1 + k)
             && (w + days_in_month y m - 1 + k <? w + days_in_month y m)) with false
      by (symmetry; apply andb_false_iff; lia).
    do 5 f_equal. lia.
Qed.


Lemma leadingCells_app (l1 l2 : list Cell) :
  Forall (fun c => isCurrentMonth c = false) l1 ->
  leadingCells (l1 ++ l2) = (length l1 + leadingCells l2)%nat.
Proof.
  induction 1 as [|c l1 Hc _ IH]; [reflexivity|].
  cbn [app leadingCells length]. by rewrite Hc, IH.
Qed.

Lemma leadingCells_current (l1 l2 : list Cell) :
  l1 <> [] -> Forall (fun c => isCurrentMonth c = true) l1 ->
  leadingCells (l1 ++ l2) = 0%nat.
Proof.
  intros Hne Hall. destruct Hall as [|c l1 Hc _]; [done|].
  cbn [app leadingCells]. by rewrite Hc.
Qed.

Lemma filter_current_none (l : list Cell) :
  Forall (fun c => isCurrentMonth c = false) l -> List.filter isCurrentMonth l = [].
Proof. induction 1 as [|c l Hc _ IH]; [reflexivity|]. cbn. by rewrite Hc. Qed.

Lemma filter_current_all (l : list Cell) :
  Forall (fun c => isCurrentMonth c = true) l -> List.filter isCurrentMonth l = l.
Proof. induction 1 as [|c l Hc _ IH]; [reflexivity|]. cbn. by rewrite Hc, IH. Qed.

(** A grid made of a block outside the month, a non-empty block inside it
    and a block outside it is measured block by block. *)
Lemma blocks_measure (pre cur post : list Cell) :
  Forall (fun c => isCurrentMonth c = false) pre ->
  cur <> [] -> Forall (fun c => isCurrentMonth c = true) cur ->
  Forall (fun c => isCurrentMonth c = false) post ->
  leadingCells (pre ++ cur ++ post) = length pre /\
  currentMonthCells (pre ++ cur ++ post) = cur /\
  trailingCells (pre ++ cur ++ post) = length post.
Proof.
  intros Hpre Hne Hcur Hpost. split; [|split].
  - rewrite leadingCells_app, leadingCells_current by assumption. lia.
  - unfold currentMonthCells. rewrite !List.filter_app.
    rewrite (filter_current_none pre), (filter_current_none post),
      filter_current_all by assumption.
    by rewrite app_nil_r.
  - unfold trailingCells. rewrite !rev_app_distr, <- app_assoc.
    rewrite leadingCells_app by by apply Forall_rev.
    rewrite leadingCells_current, length_rev; [lia| |by apply Forall_rev].
    intros Hrev. apply Hne. by rewrite <- (rev_involutive cur), Hrev.
Qed.

(** The grid of a plain year in three blocks: the days before the first,
    the days of the month, the days after the last. *)
Lemma getDaysInMonth_blocks zone t :
  let y := YearFromTime (LocalTime zone t) in
  let m := MonthFromTime (LocalTime zone t) in
  plain_year y -> regular zone ->
  exists pre cur post,
    getDaysInMonth zone (Num t) = pre ++ cur ++ post /\
    Z.of_nat (length pre) = weekday y m 1 /\
    Z.of_nat (length cur) = days_in_month y m /\
    Z.of_nat (length post) = 42 - weekday y m 1 - days_in_month y m /\
    Forall (fun c => isCurrentMonth c = false) pre /\
    Forall (fun c => isCurrentMonth c = true) cur /\
    Forall (fun c => isCurrentMonth c = false) post.
Proof.
  intros y m Hy Hz. rewrite getDaysInMonth_grid by assumption. fold y m.
  set (w := weekday y m 1). set (dim := days_in_month y m).
  assert (0 <= w <= 6) as Hw.
  { unfold w. rewrite <- (weekday_MakeDay y m 1) by apply MonthFromTime_range. div_lia. }
  pose proof (days_in_month_range y m) as Hdim. fold dim in Hdim.
  rewrite (seqZ_split w dim), !fmap_app by lia.
  eexists _, _, _. split; [reflexivity|].
  rewrite !length_fmap, !length_seqZ.
  repeat split; try lia; apply Forall_fmap, Forall_seqZ; intros k Hk; cbn.
  - apply andb_false_iff. lia.
  - apply andb_true_iff. lia.
  - apply andb_false_iff. lia.
Qed.

Lemma getDaysInMonth_lookup zone t (i : nat) :
  let y := YearFromTime (LocalTime zone t) in
  let m := MonthFromTime (LocalTime zone t) in
  let w := weekday y m 1 in
  plain_year y -> regular zone -> (i < 42)%nat ->
  getDaysInMonth zone (Num t) !! i
  = Some {| date := Num (UTC zone (MakeDate (MakeDay y m (1 + Z.of_nat i - w)) 0));
            isCurrentMonth := (w <=? Z.of_nat i) && (Z.of_nat i <? w + days_in_month y m) |}.
Proof.
  intros y m w Hy Hz Hi. rewrite getDaysInMonth_grid by assumption.
  rewrite list_lookup_fmap, lookup_seqZ_lt by lia. reflexivity.
Qed.

(** A cell of the grid of a plain year: it stands for the day [i - w]
    days from the first of the month, is the instant [UTC] gives for the
    midnight of that day, and is flagged when that day is of the month. *)
Lemma getDaysInMonth_cell zone t i cell :
  let y := YearFromTime (LocalTime zone t) in
  let m := MonthFromTime (LocalTime zone t) in
  let w := weekday y m 1 in
  let day := MakeDay y m 1 + Z.of_nat i - w in
  plain_year y -> regular zone ->
  getDaysInMonth zone (Num t) !! i = Some cell ->
  (i < 42)%nat /\
  date cell = Num (UTC zone (MakeDate day 0)) /\
  isCurrentMonth cell
  = (w <=? Z.of_nat i) && (Z.of_nat i <? w + days_in_month y m) /\
  (MakeDay y m 1 + 4) mod 7 = w /\ -99999800 <= day <= 99999800.
Proof.
  intros y m w day Hy Hz Hcell.
  assert (0 <= m <= 11) as Hm by apply MonthFromTime_range.
  pose proof (weekday_MakeDay y m 1 Hm) as Hw. fold w in Hw.
  assert (i < 42)%nat as Hi.
  { rewrite getDaysInMonth_grid in Hcell by assumption.
    apply lookup_lt_Some in Hcell. by rewrite length_fmap, length_seqZ in Hcell. }
  rewrite getDaysInMonth_lookup in Hcell by assumption. injection Hcell as <-.
  cbn [date isCurrentMonth]. fold y m w.
  replace (MakeDay y m (1 + Z.of_nat i - w)) with day by (unfold day, MakeDay; lia).
  repeat split; try assumption; try lia.
  - unfold day. replace (MakeDay y m 1 + Z.of_nat i - w)
      with (MakeDay y m (1 + Z.of_nat i - w)) by (unfold MakeDay; lia).
    apply MakeDay_bounds; unfold plain_year in Hy; [lia|lia|].
    assert (0 <= w < 7) by (rewrite <- Hw; apply Z.mod_pos_bound; lia). lia.
  - unfold day. replace (MakeDay y m 1 + Z.of_nat i - w)
      with (MakeDay y m (1 + Z.of_nat i - w)) by (unfold MakeDay; lia).
    apply MakeDay_bounds; unfold plain_year in Hy; [lia|lia|].
    assert (0 <= w < 7) by (rewrite <- Hw; apply Z.mod_pos_bound; lia). lia.
Qed.

(** The local date of a cell of the grid. *)
Lemma local_date_UTC zone day :
  regular zone ->
  local_date zone (Num (UTC zone (MakeDate day 0)))
  = Some (YearFromTime (MakeDate day 0), MonthFromTime (MakeDate day 0),
          DateFromTime (MakeDate day 0)).
Proof.
  intros Hz. unfold local_date.
  destruct (fields_of_Day (LocalTime zone (UTC zone (MakeDate day 0))) (MakeDate day 0))
    as (-> & -> & ->); [|reflexivity].
  rewrite Day_LocalTime_UTC by assumption.
  by rewrite Day_MakeDate by (unfold msPerDay; lia).
Qed.

(** The counts of the grid where the builder works as meant.  For a Date
    in a plain year (-271820 to -1, or 100 to 275759) on a regular zone,
    daylight saving included: the cells flagged as of the month are as
    many as the month has days (28, 29, 30 or 31 by the Gregorian rule),
    the cells ahead of them as many as the weekday index (0 = Sunday, by
    Zeller's congruence) of the first of the month; in March 2024 that is
    5 cells ahead, 31 of the month and 6 behind. *)
Theorem getDaysInMonth_counts zone t :
  plain_year (YearFromTime (LocalTime zone t)) -> regular zone ->
  GridSpec.counts zone t.
Proof.
  intros Hy Hz. unfold GridSpec.counts.
  destruct (getDaysInMonth_blocks zone t Hy Hz)
    as (pre & cur & post & -> & Hpre & Hcur & Hpost & Fpre & Fcur & Fpost).
  pose proof (days_in_month_range (YearFromTime (LocalTime zone t))
                (MonthFromTime (LocalTime zone t))) as Hdim.
  assert (cur <> []) as Hne by (intros ->; simpl in Hcur; lia).
  destruct (blocks_measure pre cur post Fpre Hne Fcur Fpost) as (-> & -> & ->).
  split; [exact Hcur|]. split; [exact Hpre|].
  intros Ey Em. rewrite Ey, Em in Hpre, Hcur, Hpost.
  change (weekday 2024 2 1) with 5 in *. change (days_in_month 2024 2) with 31 in *.
  lia.
Qed.

(** 15 March 2024, noon UTC, in New York, five days after the clocks
    went forward. *)
Lemma getDaysInMonth_counts_witness :
  GridSpec.counts new_york_2024 1710504000000.
Proof.
  apply getDaysInMonth_counts.
  - right. vm_compute. split; discriminate.
  - apply regular_new_york_2024.
Defined.

(** C3 (evaluation at a failing input). On a host at UTC, with the
    current Date on 10 February of year 0: the header and the request for
    tasks name February of year 0, a leap year whose February has 29 days
    and starts on a Tuesday (weekday index 2); [new Date(0, 1, 1)] is
    1 February 1900, so the grid lays out February 1900, with 28 cells
    flagged as of the month and 4 cells ahead of them.  What the
    specification says of the counts fails of the month on display. *)
Theorem getDaysInMonth_counts_year_0 :
  let utc := fixed_zone 0 in
  let currentDate := Num (-62163763200000) in
  let cells := getDaysInMonth utc currentDate in
  toISOString currentDate = Ok (lit "0000-02-10T00:00:00.000Z") /\
  (getFullYear utc currentDate, getMonth utc currentDate) = (Num 0, Num 1) /\
  days_in_month 0 1 = 29 /\ weekday 0 1 1 = 2 /\
  length (currentMonthCells cells) = 28%nat /\ leadingCells cells = 4%nat /\
  (local_date utc ∘ date) <$> cells !! 4%nat = Some (Some (1900, 1, 1)) /\
  ~ GridSpec.counts utc (-62163763200000).
Proof.
  cbv zeta. repeat (split; [by vm_compute|]).
  unfold GridSpec.counts. intros (H & _). vm_compute in H. discriminate.
Qed.

(** The days of the grid where the builder works as meant.  For a Date in
    a plain year (-271820 to -1, or 100 to 275759) on a regular zone,
    daylight saving included: the 42 cells are valid Dates in strictly
    increasing order, each one the calendar day after the one before it;
    the first cell flagged as of the month is the first of the month, the
    last one its last day, and the flag is set exactly between the two, so
    the cells ahead are the days just before the month and the cells
    behind the days just after it. *)
Theorem getDaysInMonth_consecutive zone t :
  plain_year (YearFromTime (LocalTime zone t)) -> regular zone ->
  GridSpec.consecutive zone t.
Proof.
  intros Hy Hz. unfold GridSpec.consecutive.
  set (y := YearFromTime (LocalTime zone t)) in *.
  set (m := MonthFromTime (LocalTime zone t)).
  set (cells := getDaysInMonth zone (Num t)).
  assert (0 <= m <= 11) as Hm by apply MonthFromTime_range.
  pose proof (days_in_month_range y m) as Hdim.
  assert (0 <= weekday y m 1 <= 6) as Hw.
  { rewrite <- (weekday_MakeDay y m 1) by assumption. div_lia. }
  assert (length cells = 42%nat) as Hlen.
  { unfold cells. rewrite getDaysInMonth_grid by assumption.
    by rewrite length_fmap, length_seqZ. }
  assert (forall i, (i < 42)%nat -> cells !! i = Some
     {| date := Num (UTC zone (MakeDate (MakeDay y m (1 + Z.of_nat i - weekday y m 1)) 0));
        isCurrentMonth := (weekday y m 1 <=? Z.of_nat i)
                          && (Z.of_nat i <? weekday y m 1 + days_in_month y m) |})
    as Hcell by (intros i Hi; by apply getDaysInMonth_lookup).
  assert (Z.of_nat (leadingCells cells) = weekday y m 1 /\
          Z.of_nat (trailingCells cells) = 42 - weekday y m 1 - days_in_month y m)
    as [Hlead Htrail].
  { destruct (getDaysInMonth_blocks zone t Hy Hz)
      as (pre & cur & post & E & Hpre & Hcur & Hpost & Fpre & Fcur & Fpost).
    fold y m in Hpre, Hcur, Hpost. unfold cells. rewrite E.
    assert (cur <> []) as Hne by (intros ->; simpl in Hcur; lia).
    destruct (blocks_measure pre cur post Fpre Hne Fcur Fpost) as (-> & _ & ->).
    lia. }
  split; [exact Hlen|]. split; [|split].
  - intros i c1 c2 H1 H2.
    assert (S i < 42)%nat as Hi by (rewrite <- Hlen; by eapply lookup_lt_Some).
    rewrite Hcell in H1, H2 by lia. injection H1 as <-. injection H2 as <-.
    cbn [date]. eexists _, _. split; [reflexivity|]. split; [reflexivity|].
    replace (MakeDate (MakeDay y m (1 + Z.of_nat (S i) - weekday y m 1)) 0)
      with (MakeDate (MakeDay y m (1 + Z.of_nat i - weekday y m 1)) 0 + msPerDay)
      by (rewrite Nat2Z.inj_succ; unfold MakeDay, MakeDate; lia).
    split; [apply UTC_next_day, Hz|].
    unfold local_date. cbn [fmap option_fmap option_map].
    f_equal. apply fields_next_day.
    replace (MakeDate (MakeDay y m (1 + Z.of_nat i - weekday y m 1)) 0 + msPerDay)
      with (MakeDate (MakeDay y m (1 + Z.of_nat i - weekday y m 1) + 1) 0)
      by (unfold MakeDate; lia).
    by rewrite !Day_LocalTime_UTC by assumption.
  - eexists _, _. rewrite !Hcell by lia. split; [reflexivity|]. cbn [date].
    rewrite !local_date_UTC by assumption.
    split; [|split; [reflexivity|]].
    + destruct (fields_of_MakeDay y m 1 (MakeDate (MakeDay y m
                  (1 + Z.of_nat (leadingCells cells) - weekday y m 1)) 0))
        as (-> & -> & ->); [lia|lia| |reflexivity].
      rewrite Day_MakeDate by (unfold msPerDay; lia). f_equal. lia.
    + cbn [date]. rewrite local_date_UTC by assumption.
      destruct (fields_of_MakeDay y m (days_in_month y m) (MakeDate (MakeDay y m
                  (1 + Z.of_nat (41 - trailingCells cells) - weekday y m 1)) 0))
        as (-> & -> & ->); [lia|lia| |reflexivity].
      rewrite Day_MakeDate by (unfold msPerDay; lia). f_equal. lia.
  - intros i c Hc.
    assert (i < 42)%nat as Hi by (rewrite <- Hlen; by eapply lookup_lt_Some).
    rewrite Hcell in Hc by lia. injection Hc as <-. cbn [isCurrentMonth].
    rewrite andb_true_iff, Z.leb_le, Z.ltb_lt. lia.
Qed.

(** 15 March 2024, noon UTC, in New York: the grid runs across the night
    of 10 March, when the clocks went forward. *)
Lemma getDaysInMonth_consecutive_witness :
  GridSpec.consecutive new_york_2024 1710504000000.
Proof.
  apply getDaysInMonth_consecutive.
  - right. vm_compute. split; discriminate.
  - apply regular_new_york_2024.
Defined.

(** C2 (evaluation at a failing input). On a host at UTC, with the
    current Date on 15 January of year 50: the header and the request for
    tasks name January of year 50; [new Date(50, 0, 1)] is 1 January 1950,
    a Sunday, so no cell leads (1 January 50 was a Saturday, weekday
    index 6), the first cell flagged as of the month is 1 January 1950 and
    the last one 31 January 1950.  The grid is the one of January 1950:
    what the specification says of the days of the grid fails of the
    month on display. *)
Theorem getDaysInMonth_consecutive_year_50 :
  let utc := fixed_zone 0 in
  let currentDate := Num (-60588086400000) in
  let cells := getDaysInMonth utc currentDate in
  toISOString currentDate = Ok (lit "0050-01-15T00:00:00.000Z") /\
  (getFullYear utc currentDate, getMonth utc currentDate) = (Num 50, Num 0) /\
  weekday 50 0 1 = 6 /\
  leadingCells cells = 0%nat /\ trailingCells cells = 11%nat /\
  (local_date utc ∘ date) <$> cells !! 0%nat = Some (Some (1950, 0, 1)) /\
  (local_date utc ∘ date) <$> cells !! 30%nat = Some (Some (1950, 0, 31)) /\
  ~ GridSpec.consecutive utc (-60588086400000).
Proof.
  cbv zeta. repeat (split; [by vm_compute|]).
  unfold GridSpec.consecutive. intros (_ & _ & (first & last & H1 & H2 & _) & _).
  vm_compute in H1. injection H1 as <-. vm_compute in H2. discriminate.
Qed.

End GridFacts.

(* ================================================================== *)
(** * Strings and date keys *)
(* ================================================================== *)

Module StringFacts.
Import JS.

Lemma split_cons_inv sep s : exists w ws, split sep s = w :: ws.
Proof.
  induction s as [|c s (w & ws & IH)]; cbn [split]; [by eexists _, _|].
  destruct (c =? sep); [by eexists _, _|]. rewrite IH. by eexists _, _.
Qed.

(** The first piece of a split is what stands ahead of the first
    separator. *)
Lemma split_app_sep sep a b :
  Forall (fun c => c <> sep) a -> split sep (a ++ sep :: b) = a :: split sep b.
Proof.
  induction 1 as [|c a Hc _ IH]; cbn [app split].
  - by rewrite Z.eqb_refl.
  - apply Z.eqb_neq in Hc. by rewrite Hc, IH.
Qed.

Lemma index_split_string sep s : exists piece, index (split sep s) 0 = Str piece.
Proof. destruct (split_cons_inv sep s) as (w & ws & ->). by exists w. Qed.

Lemma digits_are_digits n x : Forall (fun c => 48 <= c <= 57) (digits n x).
Proof.
  revert x. induction n as [|n IH]; intros x; cbn [digits]; [constructor|].
  apply Forall_app. split; [apply IH|]. repeat constructor; Z.to_euclidean_division_equations; lia.
Qed.

Lemma digits_no_sep n x sep : ~ 48 <= sep <= 57 -> Forall (fun c => c <> sep) (digits n x).
Proof.
  intros Hsep. eapply Forall_impl; [|apply digits_are_digits].
  intros c Hc ->. by apply Hsep.
Qed.

Lemma iso_date_no_T tv : Forall (fun c => c <> 84) (iso_date tv).
Proof.
  unfold iso_date, year_string.
  change (lit "-") with [45]. change (lit "+") with [43].
  assert (forall n x, Forall (fun c => c <> 84) (digits n x)) as Hd
    by (intros; apply digits_no_sep; lia).
  assert (forall c, c <> 84 -> Forall (fun c => c <> 84) [c]) as Hc
    by (by repeat constructor).
  destruct ((0 <=? _) && _); [|destruct (0 <=? _)];
    rewrite !Forall_app; repeat split; try apply Hd; apply Hc; lia.
Qed.

(** [d.toISOString().split('T')[0]] is the UTC date of [d]. *)
Lemma date_key tv iso :
  toISOString (Num tv) = Ok iso -> index (split 84 iso) 0 = Str (iso_date tv).
Proof.
  cbn [toISOString]. intros [= <-].
  change (lit "T" ++ iso_time tv) with (84 :: iso_time tv).
  by rewrite split_app_sep by apply iso_date_no_T.
Qed.

End StringFacts.

(* ================================================================== *)
(** * Tasks of a day *)
(* ================================================================== *)

Module TaskFacts.
Import JS Calendar Civil Zones DateFacts ZoneFacts GridFacts StringFacts.

Lemma strict_eq_Str v s : strict_eq v (Str s) = true <-> v = Str s.
Proof.
  destruct v as [| |s']; cbn [strict_eq]; try (split; discriminate).
  rewrite bool_decide_eq_true. split; [by intros ->|by intros [= ->]].
Qed.

(** The association keeps the tasks whose [due_date] is the string of the
    UTC date of the cell, in the order of the task list. *)
Lemma getTasksForDate_filter tasks tv :
  getTasksForDate tasks (Num tv)
  = Ok (List.filter (fun task => strict_eq (Task.due_date task) (Str (iso_date tv)))
                    tasks).
Proof.
  unfold getTasksForDate. cbn [toISOString].
  by rewrite (date_key tv _ eq_refl).
Qed.

Lemma getTasksForDate_member tasks tv dayTasks task :
  getTasksForDate tasks (Num tv) = Ok dayTasks ->
  In task dayTasks <-> In task tasks /\ Task.due_date task = Str (iso_date tv).
Proof.
  rewrite getTasksForDate_filter. intros [= <-].
  by rewrite filter_In, strict_eq_Str.
Qed.

(** A task without a due date is under no cell. *)
Lemma getTasksForDate_no_due_date tasks d dayTasks task :
  getTasksForDate tasks d = Ok dayTasks ->
  (forall s, Task.due_date task <> Str s) -> ~ In task dayTasks.
Proof.
  destruct d as [|tv]; [discriminate|]. intros H Hnone Hin.
  apply (getTasksForDate_member _ _ _ _ H) in Hin as [_ Hdue]. by eapply Hnone.
Qed.

(** Where local time is UTC or behind it, the key of a cell is the date
    the cell shows. *)
Lemma getTasksForDate_west zone y m d tasks :
  plain_year y -> west zone -> 0 <= m <= 11 ->
  1 <= d <= days_in_month y m ->
  getTasksForDate tasks (new_Date zone (Num y) (Num m) (Num d))
  = Ok (List.filter (fun task => strict_eq (Task.due_date task)
          (Str (year_string y ++ lit "-" ++ digits 2 (m + 1) ++ lit "-" ++ digits 2 d)))
        tasks).
Proof.
  intros Hy Hz Hm Hd. pose proof (days_in_month_range y m).
  rewrite new_Date_plain by (by apply offsets_close_west || lia || assumption).
  rewrite getTasksForDate_filter. unfold iso_date.
  destruct (UTC_offset zone (MakeDate (MakeDay y m d) 0)) as [u ->].
  pose proof (offset_between _ _ zone u Hz) as Hu.
  destruct (fields_of_MakeDay y m d
              (MakeDate (MakeDay y m d) 0 - GetNamedTimeZoneOffset zone u))
    as (-> & -> & ->); [assumption..| |reflexivity].
  unfold Day, MakeDate, msPerDay in *. div_lia.
Qed.

(** Where local time is ahead of UTC, the key of a cell is the date of the
    day before the one it shows. *)
Lemma getTasksForDate_east zone y m d tasks :
  plain_year y -> east zone -> 0 <= m <= 11 ->
  1 <= d <= days_in_month y m ->
  getTasksForDate tasks (new_Date zone (Num y) (Num m) (Num d))
  = Ok (List.filter (fun task => strict_eq (Task.due_date task)
          (Str (iso_date (MakeDate (MakeDay y m (d - 1)) 0))))
        tasks).
Proof.
  intros Hy Hz Hm Hd. pose proof (days_in_month_range y m).
  rewrite new_Date_plain by (by apply offsets_close_east || lia || assumption).
  rewrite getTasksForDate_filter. unfold iso_date.
  destruct (UTC_offset zone (MakeDate (MakeDay y m d) 0)) as [u ->].
  pose proof (offset_between _ _ zone u Hz) as Hu.
  destruct (fields_of_Day (MakeDate (MakeDay y m d) 0 - GetNamedTimeZoneOffset zone u)
                          (MakeDate (MakeDay y m (d - 1)) 0)) as (-> & -> & ->);
    [|reflexivity].
  unfold MakeDay, Day, MakeDate, msPerDay in *. div_lia.
Qed.

(** C4 (evaluation at a failing input). On a host one hour ahead of UTC,
    with March 2024 displayed, the task "Report" due 2024-03-15 is not
    under the cell that shows 15 March: it is under the cell that shows
    16 March. *)
Theorem getTasksForDate_shifted_east_of_Greenwich :
  let zone := fixed_zone 3600000 in
  let report :=
    {| Task.id := 1; Task.title := lit "Report"; Task.description := Null;
       Task.due_date := Str (lit "2024-03-15"); Task.priority := lit "medium";
       Task.status := lit "todo" |} in
  let cell15 := new_Date zone (Num 2024) (Num 2) (Num 15) in
  let cell16 := new_Date zone (Num 2024) (Num 2) (Num 16) in
  local_date zone cell15 = Some (2024, 2, 15) /\
  local_date zone cell16 = Some (2024, 2, 16) /\
  getTasksForDate [report] cell15 = Ok [] /\
  getTasksForDate [report] cell16 = Ok [report].
Proof. vm_compute. repeat split. Qed.

End TaskFacts.

(* ================================================================== *)
(** * Date keys tell dates apart *)
(* ================================================================== *)

Module KeyFacts.
Import JS Calendar Civil Zones DateFacts ZoneFacts GridFacts StringFacts TaskFacts.

Lemma length_digits n x : length (digits n x) = n.
Proof.
  revert x. induction n as [|n IH]; intros x; [reflexivity|].
  cbn [digits]. rewrite length_app, IH. cbn. lia.
Qed.

(** Numbers that fit the width print differently. *)
Lemma digits_inj n x x' :
  0 <= x < 10 ^ Z.of_nat n -> 0 <= x' < 10 ^ Z.of_nat n ->
  digits n x = digits n x' -> x = x'.
Proof.
  revert x x'. induction n as [|n IH]; intros x x' Hx Hx' E.
  - change (10 ^ Z.of_nat 0) with 1 in *. lia.
  - rewrite Nat2Z.inj_succ, Z.pow_succ_r in Hx, Hx' by lia.
    cbn [digits] in E. apply app_inj_tail in E as [E1 E2].
    apply IH in E1; [|div_lia..].
    assert (x mod 10 = x' mod 10) by lia. div_lia.
Qed.

Lemma year_string_inj y y' :
  -999999 <= y <= 999999 -> -999999 <= y' <= 999999 ->
  year_string y = year_string y' -> y = y'.
Proof.
  intros Hy Hy' E. unfold year_string in E.
  change (lit "+") with [43] in E. change (lit "-") with [45] in E.
  destruct ((0 <=? y) && (y <=? 9999)) eqn:B, ((0 <=? y') && (y' <=? 9999)) eqn:B'.
  - apply andb_true_iff in B as [? ?], B' as [? ?]. bool_to_prop.
    apply (digits_inj 4) in E; [assumption|change (10 ^ Z.of_nat 4) with 10000; lia..].
  - apply (f_equal length) in E. repeat case_match;
      rewrite ?length_app, !length_digits in E; cbn in E; lia.
  - apply (f_equal length) in E. repeat case_match;
      rewrite ?length_app, !length_digits in E; cbn in E; lia.
  - apply andb_false_iff in B, B'.
    destruct (Z.leb_spec 0 y), (Z.leb_spec 0 y');
      try (apply (f_equal (hd 0)) in E; discriminate E);
      apply app_inv_head, (digits_inj 6) in E;
      try (change (10 ^ Z.of_nat 6) with 1000000; lia); lia.
Qed.

(** The key [YYYY-MM-DD] tells year, month and date apart. *)
Lemma date_string_inj y m d y' m' d' :
  -999999 <= y <= 999999 -> -999999 <= y' <= 999999 ->
  0 <= m < 99 -> 0 <= m' < 99 -> 0 <= d <= 99 -> 0 <= d' <= 99 ->
  year_string y ++ lit "-" ++ digits 2 (m + 1) ++ lit "-" ++ digits 2 d
  = year_string y' ++ lit "-" ++ digits 2 (m' + 1) ++ lit "-" ++ digits 2 d' ->
  (y, m, d) = (y', m', d').
Proof.
  intros Hy Hy' Hm Hm' Hd Hd' E.
  assert (length (year_string y) = length (year_string y')) as Hlen.
  { apply (f_equal length) in E. rewrite !length_app, !length_digits in E. lia. }
  apply app_inj_1 in E as [Ey E]; [|assumption].
  apply year_string_inj in Ey; [|assumption..].
  change (lit "-") with [45] in E. apply app_inv_head in E.
  apply app_inj_1 in E as [Em E]; [|by rewrite !length_digits].
  apply app_inv_head in E.
  apply (digits_inj 2) in Em; [|change (10 ^ Z.of_nat 2) with 100; lia..].
  apply (digits_inj 2) in E; [|change (10 ^ Z.of_nat 2) with 100; lia..].
  f_equal; [f_equal|]; lia.
Qed.

(** On a host at or behind UTC the claim about due dates holds: a task
    is under the cell of a date exactly when its [due_date] is the string
    of that date, hence under no cell of another date. *)
Lemma getTasksForDate_west_only_that_cell zone tasks task y m d y' m' d' dayTasks :
  plain_year y -> plain_year y' -> west zone ->
  0 <= m <= 11 -> 0 <= m' <= 11 ->
  1 <= d <= days_in_month y m -> 1 <= d' <= days_in_month y' m' ->
  Task.due_date task
  = Str (year_string y ++ lit "-" ++ digits 2 (m + 1) ++ lit "-" ++ digits 2 d) ->
  getTasksForDate tasks (new_Date zone (Num y') (Num m') (Num d')) = Ok dayTasks ->
  In task dayTasks <-> In task tasks /\ (y', m', d') = (y, m, d).
Proof.
  intros Hy Hy' Htz Hm Hm' Hd Hd' Hdue.
  rewrite getTasksForDate_west by assumption. intros [= <-].
  rewrite filter_In, strict_eq_Str, Hdue.
  pose proof (days_in_month_range y m). pose proof (days_in_month_range y' m').
  split; intros [Hin E]; (split; [assumption|]).
  - injection E as E. symmetry.
    apply date_string_inj; unfold plain_year in *; try lia. assumption.
  - by injection E as -> -> ->.
Qed.

End KeyFacts.

(* ================================================================== *)
(** * Month navigation *)
(* ================================================================== *)

Module NavigationFacts.
Import JS Calendar Civil Zones DateFacts ZoneFacts GridFacts.














(** C5 (evaluation at a failing input). With the current Date on
    31 January 2024, one step forward displays March 2024, not February;
    with it on 31 March 2024, one step backward still displays March. *)
Theorem navigateMonth_from_the_31st :
  let utc := fixed_zone 0 in
  let on (d : Date) :=
    {| currentDate := d; tasks := []; selectedDate := None;
       showTaskModal := false;
       newTask := {| title := lit ""; description := lit "";
                     priority := lit "medium" |};
       loading := false |} in
  let january31 := on (new_Date utc (Num 2024) (Num 0) (Num 31)) in
  let march31 := on (new_Date utc (Num 2024) (Num 2) (Num 31)) in
  displayedMonth utc january31 = (Num 2024, Num 0) /\
  displayedMonth utc (navigateMonth utc 1 january31) = (Num 2024, Num 2) /\
  displayedMonth utc march31 = (Num 2024, Num 2) /\
  displayedMonth utc (navigateMonth utc (-1) march31) = (Num 2024, Num 2).
Proof. vm_compute. repeat split. Qed.

End NavigationFacts.

(* ================================================================== *)
(** * Click and submit handlers, task indicators *)
(* ================================================================== *)

Module HandlerFacts.
Import JS Calendar StringFacts.

Lemma falsy_string_nil s : falsy_string s = true <-> s = [].
Proof. by destruct s. Qed.

(** C7. When the title is empty, or only white space, [createTask] sends
    no request and leaves the state as it is, whatever the description,
    the priority and the selected date are. *)
Theorem createTask_blank_title zone post refetch st :
  trim (title (newTask st)) = [] ->
  createTask zone post refetch st = (st, []).
Proof. intros H. unfold createTask. by rewrite H. Qed.

Lemma createTask_blank_title_witness :
  let st :=
    {| currentDate := Num 1710504000000; tasks := [];
       selectedDate := Some (Num 1710460800000); showTaskModal := true;
       newTask := {| title := lit "  "; description := lit "quarterly figures";
                     priority := lit "high" |};
       loading := false |} in
  createTask (fixed_zone 0) (Ok tt) (Ok []) st = (st, []).
Proof.
  intros st. apply (createTask_blank_title (fixed_zone 0) (Ok tt) (Ok []) st).
  reflexivity.
Defined.

Lemma fetchCalendarTasks_effects zone response st :
  exists month year rest,
    snd (fetchCalendarTasks zone response st) = GetCalendarTasks month year :: rest.
Proof. unfold fetchCalendarTasks. destruct response; by eexists _, _, _. Qed.

Lemma fetchCalendarTasks_frame zone response st :
  let st' := fst (fetchCalendarTasks zone response st) in
  currentDate st' = currentDate st /\ selectedDate st' = selectedDate st /\
  showTaskModal st' = showTaskModal st /\ newTask st' = newTask st /\
  loading st' = false.
Proof. unfold fetchCalendarTasks. by destruct response. Qed.

(** C8. When the POST fails (and on every other way the request can
    fail), [createTask] leaves the whole state as it is, so the modal stays
    open, the form keeps its fields and the selected date stays, and no
    refetch is issued; when it succeeds for a filled-in title and a valid
    selected date, the form is reset, the modal closed, the selected date
    cleared and the month's tasks are fetched again. *)
Theorem createTask_failure_keeps_form zone refetch st :
  (fst (createTask zone Err refetch st) = st /\
   forall month year,
     ~ In (GetCalendarTasks month year) (snd (createTask zone Err refetch st))) /\
  (forall selected u,
     trim (title (newTask st)) <> [] -> selectedDate st = Some (Num selected) ->
     let st' := fst (createTask zone (Ok u) refetch st) in
     newTask st' = {| title := lit ""; description := lit "";
                      priority := lit "medium" |} /\
     showTaskModal st' = false /\
     selectedDate st' = None /\
     exists month year,
       In (GetCalendarTasks month year) (snd (createTask zone (Ok u) refetch st))).
Proof.
  split.
  - unfold createTask.
    destruct (falsy_string _ || falsy_date _); [by split; [|intros ? ? []]|].
    destruct (date_value _); cbn [fst snd]; (split; [reflexivity|]);
      intros month year Hin; cbn [In] in Hin; intuition discriminate.
  - intros selected u Htitle Hsel. unfold createTask. rewrite Hsel.
    apply (not_iff_compat (falsy_string_nil _)), not_true_is_false in Htitle.
    rewrite Htitle. cbn [falsy_date orb date_value toISOString].
    pose proof (fetchCalendarTasks_frame zone refetch
      (setSelectedDate None (setShowTaskModal false (setNewTask
         {| title := lit ""; description := lit ""; priority := lit "medium" |} st))))
      as (_ & Hsd & Hmodal & Hform & _).
    pose proof (fetchCalendarTasks_effects zone refetch
      (setSelectedDate None (setShowTaskModal false (setNewTask
         {| title := lit ""; description := lit ""; priority := lit "medium" |} st))))
      as (month & year & rest & Heff).
    destruct (fetchCalendarTasks _ _ _) as [st' effects].
    cbn [fst snd] in *. rewrite Hsd, Hmodal, Hform, Heff.
    repeat split. exists month, year. right. by left.
Qed.

Lemma createTask_failure_keeps_form_witness :
  let st :=
    {| currentDate := Num 1710504000000; tasks := [];
       selectedDate := Some (Num 1710460800000); showTaskModal := true;
       newTask := {| title := lit "Report"; description := lit "";
                     priority := lit "high" |};
       loading := false |} in
  showTaskModal (fst (createTask (fixed_zone 0) (Ok tt) (Ok []) st)) = false.
Proof.
  intros st.
  apply (proj2 (createTask_failure_keeps_form (fixed_zone 0) (Ok []) st)
           1710460800000 tt);
    [discriminate | reflexivity].
Defined.

(** C10. A click on a cell whose [isCurrentMonth] flag is false changes
    nothing; a click on a cell of the month opens the modal with the date
    of the cell selected and changes nothing else. *)
Theorem handleDateClick_current_month_only cell st :
  (isCurrentMonth cell = false -> handleDateClick cell st = st) /\
  (isCurrentMonth cell = true ->
   let st' := handleDateClick cell st in
   showTaskModal st' = true /\ selectedDate st' = Some (date cell) /\
   currentDate st' = currentDate st /\ tasks st' = tasks st /\
   newTask st' = newTask st /\ loading st' = loading st).
Proof. unfold handleDateClick. split; intros ->; cbn; tauto. Qed.

Lemma handleDateClick_current_month_only_witness :
  let st :=
    {| currentDate := Num 1710504000000; tasks := []; selectedDate := None;
       showTaskModal := false;
       newTask := {| title := lit ""; description := lit "";
                     priority := lit "medium" |};
       loading := false |} in
  handleDateClick {| date := Num 1709164800000; isCurrentMonth := false |} st = st.
Proof.
  intros st.
  apply (proj1 (handleDateClick_current_month_only
                  {| date := Num 1709164800000; isCurrentMonth := false |} st)).
  reflexivity.
Defined.

Lemma slice_0_3 {A} (l : list A) : slice 0 3 l = take 3 l.
Proof.
  unfold slice. cbn [Z.ltb Z.compare]. rewrite (Z.min_l 0) by lia.
  change (Z.to_nat 0) with 0%nat. rewrite drop_0, Z.sub_0_r.
  destruct (Z.min_spec 3 (Z.of_nat (length l))) as [[? ->] | [? ->]].
  - reflexivity.
  - rewrite Nat2Z.id. by rewrite !firstn_all2 by lia.
Qed.

Lemma shownTasks_rows l : shownTasks (List.map TaskRow l) = l.
Proof.
  unfold shownTasks. induction l as [|x l IH]; [reflexivity|].
  cbn [List.map flat_map app]. by rewrite IH.
Qed.

Lemma moreCounts_rows l : moreCounts (List.map TaskRow l) = [].
Proof.
  unfold moreCounts. induction l as [|x l IH]; [reflexivity|].
  cbn [List.map flat_map app]. by rewrite IH.
Qed.

(** C9. A cell draws at most 3 of its tasks, always the first 3 of the
    association result; with more than 3 tasks it adds one line counting
    the others (the total minus 3), with 3 or fewer it draws them all and
    no count. *)
Theorem taskIndicators_policy dayTasks :
  let rows := taskIndicators dayTasks in
  (length (shownTasks rows) <= 3)%nat /\
  shownTasks rows = take 3 dayTasks /\
  ((3 < length dayTasks)%nat ->
   moreCounts rows = [Z.of_nat (length dayTasks) - 3]) /\
  ((length dayTasks <= 3)%nat ->
   shownTasks rows = dayTasks /\ moreCounts rows = []).
Proof.
  cbv zeta. unfold taskIndicators, shownTasks, moreCounts.
  rewrite !flat_map_app. fold (shownTasks (List.map TaskRow (slice 0 3 dayTasks))).
  fold (moreCounts (List.map TaskRow (slice 0 3 dayTasks))).
  rewrite shownTasks_rows, moreCounts_rows, slice_0_3.
  destruct (Z.ltb_spec 3 (Z.of_nat (length dayTasks))) as [Hlt | Hge]; cbn [flat_map app];
    rewrite app_nil_r.
  - rewrite length_take. repeat split; lia.
  - rewrite length_take. repeat split; try lia.
    by rewrite firstn_all2 by lia.
Qed.

(** Five tasks on one day: three are drawn, the line says 2 more. *)
Lemma taskIndicators_policy_witness :
  let task n :=
    {| Task.id := n; Task.title := lit "Report"; Task.description := Null;
       Task.due_date := Str (lit "2024-03-15"); Task.priority := lit "medium";
       Task.status := lit "todo" |} in
  moreCounts (taskIndicators [task 1; task 2; task 3; task 4; task 5]) = [2].
Proof.
  intros task.
  apply (proj1 (proj2 (proj2
           (taskIndicators_policy [task 1; task 2; task 3; task 4; task 5])))).
  cbn [length]. lia.
Defined.

End HandlerFacts.

(* ================================================================== *)
(** * Dashboard refresh *)
(* ================================================================== *)

Module DashboardFacts.
Import JS Dashboard.

(** C6. If one of the three requests fails, [stats], [recentTasks] and
    [upcomingTasks] all keep the value they had; they take the fetched
    values when all three succeed. *)
Theorem fetchDashboardData_all_or_nothing statsR recentR upcomingR st :
  let st' := fst (fetchDashboardData statsR recentR upcomingR st) in
  (statsR = Err \/ recentR = Err \/ upcomingR = Err ->
   stats st' = stats st /\ recentTasks st' = recentTasks st /\
   upcomingTasks st' = upcomingTasks st) /\
  (forall s r u, statsR = Ok s -> recentR = Ok r -> upcomingR = Ok u ->
   stats st' = s /\ recentTasks st' = r /\ upcomingTasks st' = u).
Proof.
  cbv zeta. unfold fetchDashboardData, Promise_all3. split.
  - intros [-> | [-> | ->]]; by repeat case_match.
  - by intros s r u -> -> ->.
Qed.

(** First load, the second request fails: the panels keep their defaults. *)
Lemma fetchDashboardData_all_or_nothing_witness :
  let st' :=
    fst (fetchDashboardData
           (Ok {| total_tasks := 7; completed_tasks := 3; pending_tasks := 4;
                  overdue_tasks := 1; today_tasks := 2 |})
           Err (Ok []) initial) in
  stats st' = stats initial /\ recentTasks st' = recentTasks initial /\
  upcomingTasks st' = upcomingTasks initial.
Proof.
  intros st'.
  apply (proj1 (fetchDashboardData_all_or_nothing
           (Ok {| total_tasks := 7; completed_tasks := 3; pending_tasks := 4;
                  overdue_tasks := 1; today_tasks := 2 |})
           Err (Ok []) initial)).
  right. left. reflexivity.
Defined.

End DashboardFacts.

(* ================================================================== *)
(** * More on the grid *)
(* ================================================================== *)

Module GridMore.

Import JS JSText Calendar CalendarView Civil Zones DateFacts ZoneFacts GridFacts.

(** Every row of the grid is a week from Sunday to Saturday: in a plain
    year, on a regular zone, the cell at position [i] falls on weekday
    [i mod 7], the one the column header [dayNames[i mod 7]] names. *)
Theorem getDaysInMonth_columns zone t i cell :
  plain_year (YearFromTime (LocalTime zone t)) -> regular zone ->
  getDaysInMonth zone (Num t) !! i = Some cell ->
  getDay zone (date cell) = Num (Z.of_nat i mod 7) /\
  exists name, dayNames !! Z.to_nat (Z.of_nat i mod 7) = Some name /\
    index_number dayNames (getDay zone (date cell)) = Str name.
Proof.
  intros Hy Hz Hcell.
  destruct (getDaysInMonth_cell zone t i cell Hy Hz Hcell) as (Hi & -> & _ & Hw & _).
  cbn [getDay]. unfold WeekDay. rewrite Day_LocalTime_UTC by assumption.
  assert ((MakeDay (YearFromTime (LocalTime zone t)) (MonthFromTime (LocalTime zone t)) 1
           + Z.of_nat i
           - weekday (YearFromTime (LocalTime zone t))
                     (MonthFromTime (LocalTime zone t)) 1 + 4) mod 7
          = Z.of_nat i mod 7) as ->.
  { revert Hw. generalize (weekday (YearFromTime (LocalTime zone t))
                                   (MonthFromTime (LocalTime zone t)) 1).
    generalize (MakeDay (YearFromTime (LocalTime zone t))
                        (MonthFromTime (LocalTime zone t)) 1).
    intros D w Hw. div_lia. }
  split; [reflexivity|].
  assert (0 <= Z.of_nat i mod 7 < 7) as Hr by div_lia.
  destruct (lookup_lt_is_Some_2 dayNames (Z.to_nat (Z.of_nat i mod 7))) as [name Hname];
    [cbn; lia|].
  exists name. split; [exact Hname|].
  unfold index_number, index. destruct (Z.ltb_spec (Z.of_nat i mod 7) 0); [lia|].
  by rewrite Hname.
Qed.

(** The cell at position 7 of March 2024 in New York, Sunday 3 March. *)
Lemma getDaysInMonth_columns_witness :
  getDay new_york_2024 (date {| date := Num 1709442000000; isCurrentMonth := true |})
  = Num (Z.of_nat 7 mod 7).
Proof.
  apply (proj1 (getDaysInMonth_columns new_york_2024 1710504000000 7
                  {| date := Num 1709442000000; isCurrentMonth := true |}
                  ltac:(right; vm_compute; split; discriminate)
                  regular_new_york_2024
                  ltac:(vm_compute; reflexivity))).
Defined.



(** An Invalid Date gives 42 cells that are all Invalid Dates outside the
    month: nothing is flagged, whatever the time zone. *)
Theorem getDaysInMonth_invalid zone :
  getDaysInMonth zone NaN
  = List.repeat {| date := NaN; isCurrentMonth := false |} 42.
Proof. reflexivity. Qed.

(** For a Date in one of the years 0 to 99 the builder lays out the same
    month of the year 1900 later, whatever the time zone. *)
Theorem getDaysInMonth_two_digit_year zone t1 t2 :
  0 <= YearFromTime (LocalTime zone t1) <= 99 ->
  YearFromTime (LocalTime zone t2) = 1900 + YearFromTime (LocalTime zone t1) ->
  MonthFromTime (LocalTime zone t2) = MonthFromTime (LocalTime zone t1) ->
  getDaysInMonth zone (Num t1) = getDaysInMonth zone (Num t2).
Proof.
  intros Hy Ey Em. unfold getDaysInMonth. cbn [getFullYear getMonth].
  rewrite Ey, Em. generalize (YearFromTime (LocalTime zone t1)) Hy. clear. intros y Hy.
  unfold new_Date.
  replace ((0 <=? y) && (y <=? 99)) with true
    by (symmetry; apply andb_true_iff; lia).
  replace ((0 <=? 1900 + y) && (1900 + y <=? 99)) with false
    by (symmetry; apply andb_false_iff; lia).
  reflexivity.
Qed.

(** 15 January of year 50 and 14 January 1950, at UTC. *)
Lemma getDaysInMonth_two_digit_year_witness :
  getDaysInMonth (fixed_zone 0) (Num (-60588086400000))
  = getDaysInMonth (fixed_zone 0) (Num (-630000000000)).
Proof.
  apply getDaysInMonth_two_digit_year.
  - vm_compute. split; discriminate.
  - vm_compute. reflexivity.
  - vm_compute. reflexivity.
Defined.

End GridMore.

(* ================================================================== *)
(** * Today's cell *)
(* ================================================================== *)

Module TodayFacts.

Import JS JSText Calendar CalendarView Civil Zones DateFacts ZoneFacts GridFacts.

Lemma value_of_app a b :
  value_of (a ++ b) = fold_left (fun a c => 10 * a + (c - 48)) b (value_of a).
Proof. unfold value_of. apply fold_left_app. Qed.

Lemma decimal_loop_value fuel n acc :
  0 <= n < 10 ^ Z.of_nat fuel ->
  value_of (decimal_loop fuel n acc)
  = fold_left (fun a c => 10 * a + (c - 48)) acc n.
Proof.
  revert n acc. induction fuel as [|fuel IH]; intros n acc Hn.
  - change (10 ^ Z.of_nat 0) with 1 in Hn. assert (n = 0) as -> by lia. reflexivity.
  - rewrite Nat2Z.inj_succ, Z.pow_succ_r in Hn by lia. cbn [decimal_loop].
    destruct (Z.ltb_spec n 10).
    + unfold value_of. cbn [fold_left]. f_equal. div_lia.
    + rewrite IH by div_lia. cbn [fold_left]. f_equal. div_lia.
Qed.

(** Reading the decimal string of a number gives the number back: the
    fuel of [decimal] is enough for all its digits. *)
Lemma decimal_value n : 0 <= n -> value_of (decimal n) = n.
Proof.
  intros Hn. unfold decimal. rewrite decimal_loop_value; [reflexivity|].
  split; [assumption|]. rewrite Nat2Z.inj_succ, Z2Nat.id by apply Z.log2_nonneg.
  destruct (Z.eq_dec n 0) as [-> | Hne]; [reflexivity|].
  pose proof (Z.log2_spec n ltac:(lia)) as [_ Hlt].
  eapply Z.lt_le_trans; [exact Hlt|].
  apply Z.pow_le_mono_l. pose proof (Z.log2_nonneg n). lia.
Qed.

Lemma decimal_loop_digits fuel n acc :
  Forall (fun c => 48 <= c <= 57) acc ->
  Forall (fun c => 48 <= c <= 57) (decimal_loop fuel n acc).
Proof.
  revert n acc. induction fuel as [|fuel IH]; intros n acc Hacc; [exact Hacc|].
  cbn [decimal_loop].
  assert (Forall (fun c => 48 <= c <= 57) ((48 + n mod 10) :: acc)) as Hacc'
    by (constructor; [div_lia|exact Hacc]).
  destruct (n <? 10); [exact Hacc'|by apply IH].
Qed.

Lemma padded_value n k : 0 <= n -> value_of (ToZeroPaddedDecimalString n k) = n.
Proof.
  intros Hn. unfold ToZeroPaddedDecimalString. cbv zeta. rewrite value_of_app.
  assert (value_of (List.repeat 48 (k - length (decimal n))) = 0) as ->.
  { generalize (k - length (decimal n))%nat. intros j.
    unfold value_of. induction j as [|j IH]; [reflexivity|]. exact IH. }
  by apply decimal_value.
Qed.

Lemma padded_digits n k :
  Forall (fun c => 48 <= c <= 57) (ToZeroPaddedDecimalString n k).
Proof.
  unfold ToZeroPaddedDecimalString. cbv zeta. apply Forall_app. split.
  - apply Forall_forall. intros c Hc. apply repeat_spec in Hc. lia.
  - apply decimal_loop_digits. constructor.
Qed.

(** The date of the month always prints on two places. *)
Lemma padded_date_length d :
  0 <= d <= 99 -> length (ToZeroPaddedDecimalString d 2) = 2%nat.
Proof.
  intros Hd. unfold ToZeroPaddedDecimalString. cbv zeta.
  rewrite length_app, repeat_length.
  assert (1 <= length (decimal d) <= 2)%nat; [|unfold JSString, CodeUnit in *; lia].
  unfold decimal. assert (Z.log2 d <= 6) as Hl.
  { destruct (Z.eq_dec d 0) as [->|]; [cbn; lia|].
    enough (Z.log2 d < 7) by lia. apply Z.log2_lt_pow2; [lia|].
    change (2 ^ 7) with 128. lia. }
  pose proof (Z.log2_nonneg d).
  assert (exists j, Z.to_nat (Z.log2 d) = j /\ (j <= 6)%nat) as (j & -> & Hj)
    by (eexists; split; [reflexivity|lia]).
  cbn [decimal_loop]. destruct (Z.ltb_spec d 10); [cbn; lia|].
  destruct j as [|j]; [cbn; lia|]. cbn [decimal_loop].
  destruct (Z.ltb_spec (d / 10) 10); [cbn; lia|]. div_lia.
Qed.

Lemma day_name_length w : length (day_name w) = 3%nat.
Proof. unfold day_name. by repeat case_match. Qed.

Lemma month_name_length m : length (month_name m) = 3%nat.
Proof. unfold month_name. by repeat case_match. Qed.

Lemma month_name_inj m m' :
  0 <= m <= 11 -> 0 <= m' <= 11 -> month_name m = month_name m' -> m = m'.
Proof.
  intros Hm Hm' E. month_cases m; month_cases m'; try reflexivity; discriminate E.
Qed.

Lemma signed_year_inj y y' :
  (if 0 <=? y then lit "" else lit "-") ++ ToZeroPaddedDecimalString (Z.abs y) 4
  = (if 0 <=? y' then lit "" else lit "-") ++ ToZeroPaddedDecimalString (Z.abs y') 4 ->
  y = y'.
Proof.
  change (lit "") with (@nil Z). change (lit "-") with [45].
  assert (forall n k rest, ToZeroPaddedDecimalString n k <> 45 :: rest) as Hdig.
  { intros n k rest E. pose proof (padded_digits n k) as H. rewrite E in H.
    apply Forall_cons_1 in H as [H _]. lia. }
  intros E. destruct (Z.leb_spec 0 y), (Z.leb_spec 0 y'); cbn [app] in E.
  - apply (f_equal value_of) in E. rewrite !padded_value in E by lia. lia.
  - by apply Hdig in E.
  - symmetry in E. by apply Hdig in E.
  - apply app_inv_head with (l := [45]) in E.
    apply (f_equal value_of) in E. rewrite !padded_value in E by lia. lia.
Qed.

(** Two date strings are the same only for the same month, date and year. *)
Lemma DateString_inj t1 t2 :
  DateString t1 = DateString t2 ->
  YearFromTime t1 = YearFromTime t2 /\ MonthFromTime t1 = MonthFromTime t2 /\
  DateFromTime t1 = DateFromTime t2.
Proof.
  unfold DateString. cbv zeta. change (lit " ") with [32]. intros E.
  apply app_inj_1 in E as [_ E]; [|by rewrite !day_name_length].
  apply app_inv_head with (l := [32]) in E.
  apply app_inj_1 in E as [Em E]; [|by rewrite !month_name_length].
  apply app_inv_head with (l := [32]) in E.
  pose proof (DateFromTime_range t1). pose proof (DateFromTime_range t2).
  apply app_inj_1 in E as [Ed E]; [|by rewrite !padded_date_length by lia].
  apply app_inv_head with (l := [32]) in E.
  apply signed_year_inj in E.
  apply month_name_inj in Em; [|apply MonthFromTime_range..].
  apply (f_equal value_of) in Ed. rewrite !padded_value in Ed by lia.
  auto.
Qed.

(** The weekday in a date string follows from the rest of it. *)
Lemma DateString_of_fields t1 t2 :
  YearFromTime t1 = YearFromTime t2 -> MonthFromTime t1 = MonthFromTime t2 ->
  DateFromTime t1 = DateFromTime t2 -> DateString t1 = DateString t2.
Proof.
  intros Ey Em Ed. unfold DateString. cbv zeta. rewrite Ey, Em, Ed.
  do 1 f_equal. unfold WeekDay.
  by rewrite <- (MakeDay_of_time t1), <- (MakeDay_of_time t2), Ey, Em, Ed.
Qed.

Lemma DateString_not_invalid t : DateString t <> lit "Invalid Date".
Proof.
  unfold DateString, day_name. cbv zeta. intros E.
  repeat case_match; discriminate E.
Qed.

(** [isToday] holds exactly for the Dates on today's local calendar day,
    at any time of that day; against a valid [today] an Invalid Date is
    never today. *)
Theorem isToday_same_local_date zone today date :
  (isToday zone (Num today) (Num date) = true
   <-> local_date zone (Num date) = local_date zone (Num today)) /\
  isToday zone (Num today) NaN = false.
Proof.
  unfold isToday, toDateString, local_date. split.
  - rewrite bool_decide_eq_true. split.
    + intros E. apply DateString_inj in E as (-> & -> & ->). reflexivity.
    + intros [= Ey Em Ed]. by apply DateString_of_fields.
  - apply bool_decide_eq_false. intros E. symmetry in E.
    by apply DateString_not_invalid in E.
Qed.

(** 15 March 2024 in New York, 08:00 and 20:00 local. *)
Lemma isToday_same_local_date_witness :
  isToday new_york_2024 (Num 1710504000000) (Num 1710547200000) = true.
Proof.
  apply (proj1 (isToday_same_local_date new_york_2024 1710504000000 1710547200000)).
  vm_compute. reflexivity.
Defined.




End TodayFacts.

(* ================================================================== *)
(** * More on the tasks of a day *)
(* ================================================================== *)

Module TaskMore.

Import JS JSText Calendar CalendarView Civil Zones Samples.
Import DateFacts ZoneFacts GridFacts StringFacts TaskFacts KeyFacts.

Lemma filter_sublist {A} (f : A -> bool) (l : list A) : sublist (List.filter f l) l.
Proof.
  induction l as [|x l IH]; [constructor|]. cbn [List.filter].
  destruct (f x); by constructor.
Qed.

(** The tasks of a day come in the order of the fetched list, each one
    once: the result is a sub-sequence of [tasks]. *)
Theorem getTasksForDate_sublist tasks d dayTasks :
  getTasksForDate tasks d = Ok dayTasks -> sublist dayTasks tasks.
Proof.
  destruct d as [|tv]; [discriminate|]. rewrite getTasksForDate_filter.
  intros [= <-]. apply filter_sublist.
Qed.

Lemma getTasksForDate_sublist_witness :
  sublist [report 1 "2024-03-15"; report 3 "2024-03-15"]
          [report 1 "2024-03-15"; report 2 "2024-03-16"; report 3 "2024-03-15"].
Proof. apply (getTasksForDate_sublist _ (Num 1710460800000)). reflexivity. Defined.

(** A task without a due date ([null], or the field missing) is under no
    cell. *)
Lemma getTasksForDate_no_due_date_witness :
  let task :=
    {| Task.id := 1; Task.title := lit "Report"; Task.description := Null;
       Task.due_date := Null; Task.priority := lit "medium";
       Task.status := lit "todo" |} in
  ~ In task [].
Proof.
  intros task.
  apply (getTasksForDate_no_due_date [task] (Num 1710460800000) [] task).
  - reflexivity.
  - discriminate.
Defined.

(** New York, the cell of 15 March 2024 and a task due that day. *)
Lemma getTasksForDate_west_only_that_cell_witness :
  In (report 1 "2024-03-15") [report 1 "2024-03-15"]
  <-> In (report 1 "2024-03-15") [report 1 "2024-03-15"]
      /\ (2024, 2, 15) = (2024, 2, 15).
Proof.
  apply (getTasksForDate_west_only_that_cell new_york_2024
           [report 1 "2024-03-15"] (report 1 "2024-03-15") 2024 2 15 2024 2 15).
  - right. lia.
  - right. lia.
  - unfold west, offsets_between, msPerDay. cbn. repeat constructor; lia.
  - lia.
  - lia.
  - vm_compute. split; discriminate.
  - vm_compute. split; discriminate.
  - reflexivity.
  - vm_compute. reflexivity.
Defined.

(** One hour ahead of UTC, the cell of 16 March 2024 holds the key of the
    15th. *)
Lemma getTasksForDate_east_witness :
  getTasksForDate [report 1 "2024-03-15"]
    (new_Date (fixed_zone 3600000) (Num 2024) (Num 2) (Num 16))
  = Ok (List.filter (fun task => strict_eq (Task.due_date task)
          (Str (iso_date (MakeDate (MakeDay 2024 2 (16 - 1)) 0))))
        [report 1 "2024-03-15"]).
Proof.
  apply (getTasksForDate_east (fixed_zone 3600000) 2024 2 16).
  - right. lia.
  - unfold east, offsets_between, msPerDay. cbn. repeat constructor; lia.
  - lia.
  - vm_compute. split; discriminate.
Defined.

Lemma YearFromTime_range t :
  -8640000000000000 <= t <= 8640000000000000 ->
  -271821 <= YearFromTime t <= 275760.
Proof.
  intros Ht. pose proof (YearFromTime_bounds t) as [Hlo Hhi].
  assert (-100000000 <= Day t <= 100000000) as Hd by (unfold Day, msPerDay; div_lia).
  split.
  - destruct (Z_le_gt_dec (-271821) (YearFromTime t)) as [|Hgt]; [assumption|].
    pose proof (DayFromYear_le (YearFromTime t + 1) (-271821) ltac:(lia)) as H.
    change (DayFromYear (-271821)) with (-100000109) in H. lia.
  - destruct (Z_le_gt_dec (YearFromTime t) 275760) as [|Hgt]; [assumption|].
    pose proof (DayFromYear_le 275761 (YearFromTime t) ltac:(lia)) as H.
    change (DayFromYear 275761) with 100000110 in H. lia.
Qed.

(** Within the range of a Date, the date key tells days apart. *)
Lemma iso_date_inj t1 t2 :
  -8640000000000000 <= t1 <= 8640000000000000 ->
  -8640000000000000 <= t2 <= 8640000000000000 ->
  iso_date t1 = iso_date t2 -> Day t1 = Day t2.
Proof.
  intros H1 H2 E. apply YearFromTime_range in H1, H2.
  pose proof (MonthFromTime_range t1). pose proof (MonthFromTime_range t2).
  pose proof (DateFromTime_range t1). pose proof (DateFromTime_range t2).
  unfold iso_date in E. apply date_string_inj in E; try lia.
  injection E as Ey Em Ed.
  rewrite <- (MakeDay_of_time t1), <- (MakeDay_of_time t2), Ey, Em, Ed.
  reflexivity.
Qed.

(** On a host whose zone keeps one offset, no task is under two cells of
    the grid of a plain year. *)
Theorem getTasksForDate_one_cell offset t tasks task i j ci cj di dj :
  plain_year (YearFromTime (LocalTime (fixed_zone offset) t)) ->
  - msPerDay < offset < msPerDay ->
  getDaysInMonth (fixed_zone offset) (Num t) !! i = Some ci ->
  getDaysInMonth (fixed_zone offset) (Num t) !! j = Some cj ->
  getTasksForDate tasks (date ci) = Ok di ->
  getTasksForDate tasks (date cj) = Ok dj ->
  In task di -> In task dj -> i = j.
Proof.
  intros Hy Hoff Hi Hj Hdi Hdj Ini Inj.
  pose proof (regular_fixed offset Hoff) as Hz.
  destruct (getDaysInMonth_cell _ t i ci Hy Hz Hi) as (_ & Ei & _ & _ & Bi).
  destruct (getDaysInMonth_cell _ t j cj Hy Hz Hj) as (_ & Ej & _ & _ & Bj).
  rewrite Ei, UTC_fixed in Hdi. rewrite Ej, UTC_fixed in Hdj. clear Ei Ej Hi Hj Hz.
  apply (getTasksForDate_member _ _ _ _ Hdi) in Ini as [_ Ki].
  apply (getTasksForDate_member _ _ _ _ Hdj) in Inj as [_ Kj].
  rewrite Ki in Kj. injection Kj as E. clear Ki Hdi Hdj.
  revert E Bi Bj.
  generalize (MakeDay (YearFromTime (LocalTime (fixed_zone offset) t))
                      (MonthFromTime (LocalTime (fixed_zone offset) t)) 1).
  generalize (weekday (YearFromTime (LocalTime (fixed_zone offset) t))
                      (MonthFromTime (LocalTime (fixed_zone offset) t)) 1).
  clear Hy. intros w D E Bi Bj.
  apply iso_date_inj in E; [|unfold MakeDate, msPerDay in *; lia..].
  unfold Day, MakeDate, msPerDay in *. div_lia.
Qed.

(** One hour ahead of UTC: the cell of 15 March 2024 and a task with the
    key of that cell. *)
Lemma getTasksForDate_one_cell_witness : 19%nat = 19%nat.
Proof.
  apply (getTasksForDate_one_cell 3600000 1710504000000
           [report 1 "2024-03-14"] (report 1 "2024-03-14") 19 19
           {| date := Num 1710457200000; isCurrentMonth := true |}
           {| date := Num 1710457200000; isCurrentMonth := true |}
           [report 1 "2024-03-14"] [report 1 "2024-03-14"]).
  - right. vm_compute. split; discriminate.
  - vm_compute. split; reflexivity.
  - vm_compute. reflexivity.
  - vm_compute. reflexivity.
  - vm_compute. reflexivity.
  - vm_compute. reflexivity.
  - left. reflexivity.
  - left. reflexivity.
Defined.

(** Across a change to daylight saving time two cells can share a key:
    in London the midnight of 31 March 2024 is 00:00 UTC and the midnight
    of 1 April, an hour ahead of UTC by then, is 23:00 UTC of 31 March, so
    a task due 2024-03-31 is drawn under both cells of the March grid. *)
Theorem getTasksForDate_under_two_cells :
  let cells := getDaysInMonth london_2024 (Num 1710504000000) in
  let task := report 1 "2024-03-31" in
  (local_date london_2024 ∘ date) <$> cells !! 35%nat = Some (Some (2024, 2, 31)) /\
  (local_date london_2024 ∘ date) <$> cells !! 36%nat = Some (Some (2024, 3, 1)) /\
  (getTasksForDate [task] ∘ date) <$> cells !! 35%nat = Some (Ok [task]) /\
  (getTasksForDate [task] ∘ date) <$> cells !! 36%nat = Some (Ok [task]).
Proof. vm_compute. repeat split. Qed.

(** Drawing the grid of a plain year never throws: every cell is a valid
    Date, so the lookup of its tasks succeeds. *)
Theorem getTasksForDate_defined_on_grid zone t tasks i cell :
  plain_year (YearFromTime (LocalTime zone t)) -> regular zone ->
  getDaysInMonth zone (Num t) !! i = Some cell ->
  exists dayTasks, getTasksForDate tasks (date cell) = Ok dayTasks.
Proof.
  intros Hy Hz Hcell.
  destruct (getDaysInMonth_cell zone t i cell Hy Hz Hcell) as (_ & -> & _).
  rewrite getTasksForDate_filter. eexists. reflexivity.
Qed.

Lemma getTasksForDate_defined_on_grid_witness :
  exists dayTasks,
    getTasksForDate [] (date {| date := Num 1710475200000; isCurrentMonth := true |})
    = Ok dayTasks.
Proof.
  apply (getTasksForDate_defined_on_grid new_york_2024 1710504000000 [] 19
           {| date := Num 1710475200000; isCurrentMonth := true |}).
  - right. vm_compute. split; discriminate.
  - apply regular_new_york_2024.
  - vm_compute. reflexivity.
Defined.




End TaskMore.

(* ================================================================== *)
(** * Fetching, headers, indicators, classes, tabs *)
(* ================================================================== *)

Module ViewFacts.

Import JS JSText Calendar CalendarView Civil Zones Samples DateFacts HandlerFacts.

(** The fetch asks for the month on display, counted from 1 (so between 1
    and 12), and its year; whatever the outcome the loading flag is down
    afterwards and nothing but [tasks] and [loading] has changed; [tasks]
    takes the data of a response and stays as it is on a failure. *)
Theorem fetchCalendarTasks_outcome zone response st t :
  currentDate st = Num t ->
  let st' := fst (fetchCalendarTasks zone response st) in
  (exists month year rest,
     snd (fetchCalendarTasks zone response st)
     = GetCalendarTasks (Num month) (Num year) :: rest /\
     1 <= month <= 12 /\
     displayedMonth zone st = (Num year, Num (month - 1))) /\
  loading st' = false /\
  tasks st' = match response with Ok data => data | Err => tasks st end /\
  setLoading (loading st) (setTasks (tasks st) st') = st.
Proof.
  intros Hcur. cbv zeta. unfold fetchCalendarTasks, displayedMonth.
  cbn [currentDate setLoading]. rewrite Hcur. cbn [getMonth getFullYear num_add].
  pose proof (MonthFromTime_range (LocalTime zone t)) as Hm.
  split.
  - destruct response; cbn [snd]; eexists _, _, _; (split; [reflexivity|]);
      (split; [lia|]); do 2 f_equal; lia.
  - destruct response, st; cbn; cbn in Hcur; subst; repeat split.
Qed.

(** A failed fetch in New York on 15 March 2024. *)
Lemma fetchCalendarTasks_outcome_witness :
  loading (fst (fetchCalendarTasks new_york_2024 Err march15)) = false.
Proof.
  apply (fetchCalendarTasks_outcome new_york_2024 Err march15 1710504000000 eq_refl).
Defined.

(** The title of the calendar always finds its month name: for a valid
    [currentDate] the lookup in [monthNames] is within bounds. *)
Theorem headerTitle_defined zone st t :
  currentDate st = Num t ->
  exists name,
    monthNames !! Z.to_nat (MonthFromTime (LocalTime zone t)) = Some name /\
    headerTitle zone st = (Str name, Num (YearFromTime (LocalTime zone t))).
Proof.
  intros Hcur. unfold headerTitle. rewrite Hcur. cbn [getMonth getFullYear].
  pose proof (MonthFromTime_range (LocalTime zone t)) as Hm.
  destruct (lookup_lt_is_Some_2 monthNames (Z.to_nat (MonthFromTime (LocalTime zone t))))
    as [name Hname]; [cbn; lia|].
  exists name. split; [exact Hname|].
  unfold index_number, index. destruct (Z.ltb_spec (MonthFromTime (LocalTime zone t)) 0); [lia|].
  by rewrite Hname.
Qed.

Lemma headerTitle_defined_witness :
  exists name,
    monthNames !! Z.to_nat (MonthFromTime (LocalTime new_york_2024 1710504000000))
    = Some name /\
    headerTitle new_york_2024 march15
    = (Str name, Num (YearFromTime (LocalTime new_york_2024 1710504000000))).
Proof. apply headerTitle_defined. reflexivity. Defined.

(** Nothing is lost between the rows and the count: the rows of a cell
    are its first tasks, in order, then at most one count line, and the
    tasks drawn plus the count on that line are all the tasks of the day. *)
Theorem taskIndicators_accounts_for_all dayTasks :
  exists shown hidden,
    dayTasks = shown ++ hidden /\
    taskIndicators dayTasks
    = List.map TaskRow shown
      ++ (if decide (hidden = []) then [] else [MoreRow (Z.of_nat (length hidden))]).
Proof.
  exists (take 3 dayTasks), (drop 3 dayTasks). split; [by rewrite take_drop|].
  unfold taskIndicators. rewrite slice_0_3. f_equal.
  destruct (Z.ltb_spec 3 (Z.of_nat (length dayTasks))) as [Hlt | Hge].
  - destruct (decide (drop 3 dayTasks = [])) as [E | _].
    + apply (f_equal length) in E. rewrite length_drop in E. cbn in E. lia.
    + rewrite length_drop. do 2 f_equal. lia.
  - rewrite drop_ge by lia. reflexivity.
Qed.

End ViewFacts.

Module DashboardMore.
Import JS Dashboard.

(** The refresh always sends its three requests, in the same order, logs
    one error exactly when one of them fails, and always ends with the
    loading flag down: the spinner cannot stay. *)
Theorem fetchDashboardData_effects statsR recentR upcomingR st :
  let failed :=
    match statsR, recentR, upcomingR with
    | Ok _, Ok _, Ok _ => false
    | _, _, _ => true
    end in
  loading (fst (fetchDashboardData statsR recentR upcomingR st)) = false /\
  snd (fetchDashboardData statsR recentR upcomingR st)
  = [Get (lit "/dashboard/stats"); Get (lit "/dashboard/recent-tasks");
     Get (lit "/dashboard/upcoming-tasks")]
    ++ (if failed then [ConsoleError (lit "Error fetching dashboard data:")] else []).
Proof.
  unfold fetchDashboardData, Promise_all3.
  destruct statsR, recentR, upcomingR; cbn; by rewrite ?app_nil_r.
Qed.

End DashboardMore.

Module ClassFacts.
Import JS JSText CalendarView DashboardView.

(** A status the table does not know, and [Object.prototype] neither,
    gets the classes of [todo] on the calendar dot, on the status badge
    and on the task card, and a priority of that kind the class of
    [medium]. *)
Theorem classes_fall_back inherited key :
  key <> lit "todo" -> key <> lit "in_progress" -> key <> lit "completed" ->
  key <> lit "low" -> key <> lit "medium" -> key <> lit "high" ->
  inherited key = None ->
  getTaskDotClass inherited key = getTaskDotClass inherited (lit "todo") /\
  getStatusClass inherited key = getStatusClass inherited (lit "todo") /\
  getTaskCardClass inherited key = getTaskCardClass inherited (lit "todo") /\
  getPriorityClass inherited key = getPriorityClass inherited (lit "medium").
Proof.
  intros H1 H2 H3 H4 H5 H6 Hnone.
  unfold getTaskDotClass, getStatusClass, getTaskCardClass, getPriorityClass, lookup_or.
  unfold dotClasses, statusClasses, taskCardClasses, priorityClasses. cbn [List.find fst snd].
  rewrite (bool_decide_eq_false_2 (lit "todo" = key)),
    (bool_decide_eq_false_2 (lit "in_progress" = key)),
    (bool_decide_eq_false_2 (lit "completed" = key)),
    (bool_decide_eq_false_2 (lit "low" = key)),
    (bool_decide_eq_false_2 (lit "medium" = key)),
    (bool_decide_eq_false_2 (lit "high" = key))
    by (intros E; symmetry in E; contradiction).
  rewrite Hnone. repeat split.
Qed.

Lemma classes_fall_back_witness :
  getStatusClass (fun _ => None) (lit "archived") = getStatusClass (fun _ => None) (lit "todo").
Proof.
  apply (proj1 (proj2 (classes_fall_back (fun _ => None) (lit "archived")
     ltac:(discriminate) ltac:(discriminate) ltac:(discriminate)
     ltac:(discriminate) ltac:(discriminate) ltac:(discriminate) eq_refl))).
Defined.

End ClassFacts.

Module AppFacts.
Import JS App.

(** After any clicks on the two tabs exactly one view is drawn, the one of
    the tab clicked last (the dashboard before any click). *)
Theorem content_one_view cs :
  content (clicks cs initial)
  = match list.last cs with
    | Some ClickCalendarTab => [CalendarView]
    | Some ClickDashboardTab | None => [DashboardView]
    end.
Proof.
  destruct (list.last cs) as [c|] eqn:E.
  - apply last_Some in E as [cs' ->]. unfold clicks. rewrite fold_left_app.
    cbn [fold_left]. by destruct c.
  - apply last_None in E as ->. reflexivity.
Qed.

End AppFacts.

(* ================================================================== *)
(** * The calendar under events *)
(* ================================================================== *)

Module EventFacts.
Import JS Calendar CalendarEvents Zones Samples.

Lemma step_modal_has_date zone e s :
  modal_has_date s -> modal_has_date (fst (step zone e s)).
Proof.
  unfold modal_has_date. intros Inv.
  destruct e as [| |i| |text|text|text| |which outcome]; cbn [step];
    unfold in_modal, on_ui, navigate, startFetch, startCreate, settleCreate,
      settleFetch, startFetch, handleDateClick;
    repeat case_match; simplify_eq; cbn in *; try (exact Inv); try discriminate;
    try (intros _; apply Inv; congruence); try congruence.
Qed.

(** From the moment the component is mounted, whatever the user does and
    in whatever order the requests come back, the modal is never open
    without a selected date. *)
Theorem modal_always_has_date zone now events :
  let s := fst (run zone events (mounted zone now)) in
  showTaskModal (ui s) = true -> selectedDate (ui s) <> None.
Proof.
  cbv zeta. change (modal_has_date (fst (run zone events (mounted zone now)))).
  assert (modal_has_date (mounted zone now)) as Hinit by discriminate.
  revert Hinit. generalize (mounted zone now). induction events as [|e events IH]; intros s Hs.
  - exact Hs.
  - cbn [run]. pose proof (step_modal_has_date zone e s Hs) as Hstep.
    destruct (step zone e s) as [s1 effects1]. specialize (IH s1 Hstep).
    by destruct (run zone events s1).
Qed.

(** A click on the cell of 15 March 2024 in New York right after
    mounting. *)
Lemma modal_always_has_date_witness :
  selectedDate (ui (fst (run new_york_2024 [ClickDay 19]
                           (mounted new_york_2024 (Num 1710504000000))))) <> None.
Proof.
  apply (modal_always_has_date new_york_2024 (Num 1710504000000) [ClickDay 19]).
  vm_compute. reflexivity.
Defined.

(** The form changes only when the user types in it or a POST succeeds:
    closing the modal, choosing another day, changing month, a failed
    POST and the responses to fetches leave the draft as it is. *)
Theorem step_keeps_form zone e s :
  match e with
  | TypeTitle _ | TypeDescription _ | SelectPriority _ => False
  | Settle which (Fulfilled _) =>
      forall captured, pending s !! which <> Some (PendingPost captured)
  | _ => True
  end ->
  newTask (ui (fst (step zone e s))) = newTask (ui s).
Proof.
  destruct e as [| |i| |text|text|text| |which outcome]; cbn [step]; intros He;
    try contradiction; try reflexivity.
  - destruct (_ !! i) as [day|]; [|reflexivity]. cbn. unfold handleDateClick.
    by destruct (isCurrentMonth day).
  - unfold in_modal. by destruct (showTaskModal (ui s)).
  - unfold in_modal. destruct (showTaskModal (ui s)); [|reflexivity].
    unfold startCreate. destruct (_ || _); [reflexivity|]. by destruct (date_value _).
  - destruct (pending s !! which) as [[|captured]|] eqn:E; [| |reflexivity].
    + by destruct outcome.
    + destruct outcome; [|reflexivity]. by destruct (He captured).
Qed.

Lemma step_keeps_form_witness :
  newTask (ui (fst (step new_york_2024 CloseModal
                      {| ui := march15_modal; pending := [] |})))
  = newTask (ui {| ui := march15_modal; pending := [] |}).
Proof.
  apply (step_keeps_form new_york_2024 CloseModal {| ui := march15_modal; pending := [] |}).
  exact I.
Defined.



(** The refetch after a successful POST asks for the month that was on
    display when Create was clicked, even when the user has moved to
    another month before the POST came back. *)
Theorem refetch_uses_month_of_click zone st selected data :
  showTaskModal st = true -> trim (title (newTask st)) <> [] ->
  selectedDate st = Some (Num selected) ->
  let result :=
    run zone [ClickCreate; CloseModal; ClickNext; Settle 0 (Fulfilled data)]
      {| ui := st; pending := [] |} in
  list.last (snd result)
  = Some (GetCalendarTasks (num_add (getMonth zone (currentDate st)) (Num 1))
                           (getFullYear zone (currentDate st))) /\
  currentDate (ui (fst result)) = currentDate (navigateMonth zone 1 st).
Proof.
  intros Hmodal Htitle Hsel. cbv zeta. cbn [run step].
  unfold in_modal, startCreate. cbn [ui pending]. rewrite Hmodal, Hsel.
  destruct (trim (title (newTask st))) as [|c rest] eqn:E; [contradiction|].
  cbn [falsy_string falsy_date orb date_value toISOString].
  cbn [ui pending showTaskModal]. rewrite Hmodal.
  cbn. split; reflexivity.
Qed.

Lemma refetch_uses_month_of_click_witness :
  list.last (snd (run new_york_2024
                    [ClickCreate; CloseModal; ClickNext; Settle 0 (Fulfilled [])]
                    {| ui := march15_modal; pending := [] |}))
  = Some (GetCalendarTasks
            (num_add (getMonth new_york_2024 (currentDate march15_modal)) (Num 1))
            (getFullYear new_york_2024 (currentDate march15_modal))).
Proof.
  apply (proj1 (refetch_uses_month_of_click new_york_2024 march15_modal 1710457200000 []
                  eq_refl ltac:(discriminate) eq_refl)).
Defined.

(** Responses are applied as they arrive: after two steps forward, when
    the answer for the second month comes back before the answer for the
    first, the display is two months on and holds the tasks of the first
    request. *)
Theorem late_response_overwrites zone st data1 data2 :
  let result :=
    run zone [ClickNext; ClickNext; Settle 1 (Fulfilled data2); Settle 0 (Fulfilled data1)]
      {| ui := st; pending := [] |} in
  tasks (ui (fst result)) = data1 /\
  currentDate (ui (fst result))
  = currentDate (navigateMonth zone 1 (navigateMonth zone 1 st)) /\
  pending (fst result) = [] /\
  snd result
  = [GetCalendarTasks
       (num_add (getMonth zone (currentDate (navigateMonth zone 1 st))) (Num 1))
       (getFullYear zone (currentDate (navigateMonth zone 1 st)));
     GetCalendarTasks
       (num_add (getMonth zone (currentDate (navigateMonth zone 1 (navigateMonth zone 1 st))))
                (Num 1))
       (getFullYear zone (currentDate (navigateMonth zone 1 (navigateMonth zone 1 st))))].
Proof. cbv zeta. cbn. repeat split. Qed.

End EventFacts.

(* ================================================================== *)
(** * The model on known values *)
(* ================================================================== *)

Module Checks.
Import JS Calendar Zones.

(** The epoch was a Thursday. *)
Example epoch_string :
  toISOString (Num 0) = Ok (lit "1970-01-01T00:00:00.000Z") /\ WeekDay 0 = 4.
Proof. by vm_compute. Qed.

(** The first and the last instant a Date can hold. *)
Example range_ends :
  toISOString (Num (-8640000000000000)) = Ok (lit "-271821-04-20T00:00:00.000Z") /\
  toISOString (Num 8640000000000000) = Ok (lit "+275760-09-13T00:00:00.000Z") /\
  TimeClip 8640000000000001 = NaN.
Proof. by vm_compute. Qed.

(** March 2024 on a host at UTC: the grid opens on Sunday 25 February and
    closes on Saturday 6 April. *)
Example march_2024_corners :
  let utc := fixed_zone 0 in
  let cells := getDaysInMonth utc (new_Date utc (Num 2024) (Num 2) (Num 15)) in
  (local_date utc ∘ date) <$> cells !! 0%nat = Some (Some (2024, 1, 25)) /\
  (local_date utc ∘ date) <$> cells !! 41%nat = Some (Some (2024, 3, 6)) /\
  getDay utc (new_Date utc (Num 2024) (Num 2) (Num 1)) = Num 5.
Proof. by vm_compute. Qed.

(** March 2024 in New York, where the clocks went forward on the 10th:
    the cells up to the 10th are midnights five hours behind UTC, the
    cells from the 11th on midnights four hours behind. *)
Example march_2024_new_york :
  let cells := getDaysInMonth new_york_2024 (Num 1710504000000) in
  date <$> cells !! 0%nat = Some (Num 1708837200000) /\
  date <$> cells !! 14%nat = Some (Num 1710046800000) /\
  date <$> cells !! 15%nat = Some (Num 1710129600000) /\
  date <$> cells !! 41%nat = Some (Num 1712376000000) /\
  (local_date new_york_2024 ∘ date) <$> cells !! 14%nat = Some (Some (2024, 2, 10)) /\
  (local_date new_york_2024 ∘ date) <$> cells !! 15%nat = Some (Some (2024, 2, 11)).
Proof. by vm_compute. Qed.

(** A local time the clock skipped is read with the offset from before
    the change, one it showed twice is the first of the two: in New York,
    02:30 on 10 March 2024 is 03:30 daylight time, and 01:30 on
    3 November 2024 is 01:30 daylight time. *)
Example skipped_and_repeated :
  UTC new_york_2024 (MakeDate (MakeDay 2024 2 10) (MakeTime 2 30 0 0))
  = 1710055800000 /\
  toISOString (Num 1710055800000) = Ok (lit "2024-03-10T07:30:00.000Z") /\
  UTC new_york_2024 (MakeDate (MakeDay 2024 10 3) (MakeTime 1 30 0 0))
  = 1730611800000 /\
  toISOString (Num 1730611800000) = Ok (lit "2024-11-03T05:30:00.000Z").
Proof. by vm_compute. Qed.

(** In the last month a Date can reach, the last day of the month is out
    of range: no cell is flagged and the cells behind are Invalid Dates. *)
Example last_month_of_range :
  let cells := getDaysInMonth (fixed_zone 0) (Num 8640000000000000) in
  currentMonthCells cells = [] /\
  cells !! 41%nat = Some {| date := NaN; isCurrentMonth := false |}.
Proof. by vm_compute. Qed.

(** The instants at which the sample zones change their offset. *)
Example change_instants :
  toISOString (Num 1710054000000) = Ok (lit "2024-03-10T07:00:00.000Z") /\
  toISOString (Num 1730613600000) = Ok (lit "2024-11-03T06:00:00.000Z") /\
  toISOString (Num 1711846800000) = Ok (lit "2024-03-31T01:00:00.000Z") /\
  toISOString (Num 1729990800000) = Ok (lit "2024-10-27T01:00:00.000Z") /\
  toISOString (Num 1325239200000) = Ok (lit "2011-12-30T10:00:00.000Z").
Proof. by vm_compute. Qed.

(** A zone that is not regular: in Samoa the calendar had no 30 December
    2011 (the offset went from -10h to +14h), and the grid of that month
    shows it: the cell built for the 30th is the same instant as the cell
    of the 31st, and both show 31. *)
Example december_2011_apia :
  let cells := getDaysInMonth apia_2011 (Num 1323950400000) in
  ~ regular apia_2011 /\
  (local_date apia_2011 ∘ date) <$> cells !! 32%nat = Some (Some (2011, 11, 29)) /\
  (local_date apia_2011 ∘ date) <$> cells !! 33%nat = Some (Some (2011, 11, 31)) /\
  (local_date apia_2011 ∘ date) <$> cells !! 34%nat = Some (Some (2011, 11, 31)) /\
  date <$> cells !! 33%nat = date <$> cells !! 34%nat.
Proof.
  cbv zeta. split; [|by vm_compute].
  intros [(lo & hi & _ & _ & Hclose & Hoff) _].
  unfold offsets_between in Hoff. cbn in Hoff.
  apply Forall_cons_1 in Hoff as [H1 Hoff]. apply Forall_cons_1 in Hoff as [H2 _].
  unfold msPerDay in Hclose. lia.
Qed.

Example trim_white_space :
  trim (lit "  Report ") = lit "Report" /\ trim [160; 9; 10; 8232] = [].
Proof. by vm_compute. Qed.

Example slice_negative : slice (-2) 10 [1; 2; 3; 4; 5] = [4; 5].
Proof. by vm_compute. Qed.

End Checks.
